(** * Chat service and post likes of the able backend (api/models.py,
    api/serializers.py, api/views.py): a shallow embedding and its properties.

    The database is an explicit state [DB] threaded through every view.
    Tables are finite maps from primary keys to rows; a QuerySet is the list
    of (pk, row) pairs it selects.  Views are functions
    [DB -> request -> DB * Response]. *)

From stdpp Require Import gmap strings list fin_maps fin_sets sorting infinite.

Set Warnings "-clear-no-such-hyp".

Open Scope Z_scope.
Open Scope nat_scope.

(** ** Models (api/models.py) *)

(** Primary keys are the database's auto-increment keys: positive numbers. *)
Abbreviation pk := positive.

(** Timestamps ([timezone.now()]) are points on a discrete clock. *)
Abbreviation time := nat.

(** [class Post]: author, content, created_at, updated_at, likes_count,
    is_active.  [likes_count] is kept as an integer, as Python computes it. *)
Record Post := mkPost {
  post_author : pk;
  post_content : string;
  post_created_at : time;
  post_updated_at : time;
  post_likes_count : Z;
  post_is_active : bool }.

(** [class PostLike]: user, post, created_at; [unique_together (user, post)]. *)
Record PostLike := mkPostLike {
  like_user : pk;
  like_post : pk;
  like_created_at : time }.

(** [class Chat]: participants (many-to-many to User, a set of user keys),
    created_at, updated_at ([auto_now]), is_active (default [True]). *)
Record Chat := mkChat {
  chat_participants : gset pk;
  chat_created_at : time;
  chat_updated_at : time;
  chat_is_active : bool }.

(** [class Message]: chat, sender, content, created_at, is_read (default
    [False]). *)
Record Message := mkMessage {
  msg_chat : pk;
  msg_sender : pk;
  msg_content : string;
  msg_created_at : time;
  msg_is_read : bool }.

Record DB := mkDB {
  users : gset pk;
  posts : gmap pk Post;
  post_likes : gmap pk PostLike;
  chats : gmap pk Chat;
  messages : gmap pk Message }.

Global Instance Post_eq_dec : EqDecision Post.
Proof. solve_decision. Defined.
Global Instance PostLike_eq_dec : EqDecision PostLike.
Proof. solve_decision. Defined.
Global Instance Chat_eq_dec : EqDecision Chat.
Proof. solve_decision. Defined.
Global Instance Message_eq_dec : EqDecision Message.
Proof. solve_decision. Defined.

Definition set_posts (s : DB) (t : gmap pk Post) : DB :=
  mkDB (users s) t (post_likes s) (chats s) (messages s).
Definition set_post_likes (s : DB) (t : gmap pk PostLike) : DB :=
  mkDB (users s) (posts s) t (chats s) (messages s).
Definition set_chats (s : DB) (t : gmap pk Chat) : DB :=
  mkDB (users s) (posts s) (post_likes s) t (messages s).
Definition set_messages (s : DB) (t : gmap pk Message) : DB :=
  mkDB (users s) (posts s) (post_likes s) (chats s) t.

(** ** The object-relational layer the views use *)

(** [Model.objects]: all rows of a table with their keys. *)
Definition objects {A} (tbl : gmap pk A) : list (pk * A) := map_to_list tbl.

(** The key the database gives to a new row: one more than the largest key
    in the table (1 for an empty table). *)
Definition new_pk {A} (tbl : gmap pk A) : pk := fresh (dom tbl).

(** [Model.objects.create(...)]. *)
Definition objects_create {A} (tbl : gmap pk A) (row : A) : gmap pk A :=
  <[new_pk tbl := row]> tbl.

(** [queryset.update(...)]: rewrite in place every row the queryset selects. *)
Definition qs_update {A} `{!EqDecision A} (qs : list (pk * A)) (f : A → A)
    (tbl : gmap pk A) : gmap pk A :=
  map_imap (λ i row, Some (if decide ((i, row) ∈ qs) then f row else row)) tbl.

(** [queryset.get(pk=id)], as [get_object_or_404] and [get_object] use it:
    the row of the queryset with that key, if any. *)
Definition qs_get {A} (qs : list (pk * A)) (id : pk) : option (pk * A) :=
  head (filter (λ x, x.1 = id) qs).

(** [Chat.Meta.ordering = ['-updated_at']]. *)
Definition Chat_ordering : relation (pk * Chat) :=
  λ x y, chat_updated_at y.2 ≤ chat_updated_at x.2.

(** [Message.Meta.ordering = ['created_at']]. *)
Definition Message_ordering : relation (pk * Message) :=
  λ x y, msg_created_at x.2 ≤ msg_created_at y.2.

Global Instance Chat_ordering_dec : RelDecision Chat_ordering.
Proof. intros x y. unfold Chat_ordering. apply _. Defined.
Global Instance Message_ordering_dec : RelDecision Message_ordering.
Proof. intros x y. unfold Message_ordering. apply _. Defined.

(** [queryset.first()] on chats: the first row in the model's ordering. *)
Definition chats_first (qs : list (pk * Chat)) : option (pk * Chat) :=
  head (merge_sort Chat_ordering qs).

(** [chat.messages]: the related manager, [Message.objects.filter(chat=chat)]. *)
Definition chat_messages (s : DB) (cid : pk) : list (pk * Message) :=
  filter (λ x, msg_chat x.2 = cid) (objects (messages s)).

(** [queryset.all()] on messages, evaluated: rows in the model's ordering. *)
Definition messages_all (qs : list (pk * Message)) : list (pk * Message) :=
  merge_sort Message_ordering qs.

(** [queryset.last()] on messages: the ordering is reversed and the first row
    taken. *)
Definition messages_last (qs : list (pk * Message)) : option (pk * Message) :=
  head (merge_sort (flip Message_ordering) qs).

(** ** Responses *)

Inductive Status :=
| HTTP_200_OK
| HTTP_201_CREATED
| HTTP_400_BAD_REQUEST
| HTTP_403_FORBIDDEN
| HTTP_404_NOT_FOUND
| HTTP_500_INTERNAL_SERVER_ERROR.

Global Instance Status_eq_dec : EqDecision Status.
Proof. solve_decision. Defined.

(** What [ChatSerializer] renders for one chat. *)
Record ChatData := mkChatData {
  cd_id : pk;
  cd_chat : Chat;
  cd_last_message : option (pk * Message);
  cd_unread_count : nat }.

Inductive Body :=
| ErrorBody
| LikeBody (liked : bool) (likes_count : Z)
| ChatListBody (l : list ChatData)
| ChatDetailBody (id : pk) (c : Chat) (msgs : list (pk * Message))
| MessageBody (id : pk) (m : Message).

Record Response := mkResponse { status : Status; data : Body }.

(** ** Posts: [toggle_like] (api/views.py) *)

(** [post.save()]: every field is written back, [updated_at] is [auto_now]. *)
Definition Post_save (s : DB) (now : time) (id : pk) (p : Post) : DB :=
  set_posts s
    (<[id := mkPost (post_author p) (post_content p) (post_created_at p) now
               (post_likes_count p) (post_is_active p)]> (posts s)).

Definition set_likes_count (p : Post) (n : Z) : Post :=
  mkPost (post_author p) (post_content p) (post_created_at p)
         (post_updated_at p) n (post_is_active p).

(** The likes of [user] on post [post_id]:
    [PostLike.objects.filter(user=user, post=post)]. *)
Definition likes_of (s : DB) (user post_id : pk) : list (pk * PostLike) :=
  filter (λ x, like_user x.2 = user ∧ like_post x.2 = post_id)
         (objects (post_likes s)).

(** [toggle_like(request, post_id)].  [get_or_create] finds the like of this
    user on this post or creates it; with more than one such row its [get]
    raises [MultipleObjectsReturned], an internal server error. *)
Definition toggle_like (s : DB) (now : time) (user : pk) (post_id : pk)
    : DB * Response :=
  match qs_get (filter (λ x, post_is_active x.2 = true) (objects (posts s)))
               post_id with
  | None => (s, mkResponse HTTP_404_NOT_FOUND ErrorBody)
  | Some (_, post) =>
    match likes_of s user post_id with
    | [] =>
      (* created *)
      let s1 := set_post_likes s
                  (objects_create (post_likes s) (mkPostLike user post_id now)) in
      let post' := set_likes_count post (post_likes_count post + 1)%Z in
      (Post_save s1 now post_id post',
       mkResponse HTTP_200_OK (LikeBody true (post_likes_count post')))
    | [(lid, _)] =>
      (* not created *)
      let s1 := set_post_likes s (delete lid (post_likes s)) in
      let post' := set_likes_count post (Z.max 0 (post_likes_count post - 1)) in
      (Post_save s1 now post_id post',
       mkResponse HTTP_200_OK (LikeBody false (post_likes_count post')))
    | _ => (s, mkResponse HTTP_500_INTERNAL_SERVER_ERROR ErrorBody)
    end
  end.

(** ** Chat serializers (api/serializers.py) *)

(** [ChatSerializer.get_last_message]: [obj.messages.last()]. *)
Definition get_last_message (s : DB) (cid : pk) : option (pk * Message) :=
  messages_last (chat_messages s cid).

(** The queryset [obj.messages.filter(is_read=False).exclude(sender=user)]. *)
Definition unread_for (s : DB) (cid user : pk) : list (pk * Message) :=
  filter (λ x, msg_sender x.2 ≠ user)
    (filter (λ x, msg_is_read x.2 = false) (chat_messages s cid)).

(** [ChatSerializer.get_unread_count]; [context] is the authenticated user of
    the request in the serializer context, if there is one. *)
Definition get_unread_count (s : DB) (context : option pk) (cid : pk) : nat :=
  match context with
  | Some user => length (unread_for s cid user)
  | None => 0
  end.

Definition ChatSerializer (s : DB) (context : option pk) (x : pk * Chat)
    : ChatData :=
  mkChatData x.1 x.2 (get_last_message s x.1) (get_unread_count s context x.1).

(** [ChatDetailSerializer]: the chat with all its messages. *)
Definition ChatDetailSerializer (s : DB) (x : pk * Chat) : Body :=
  ChatDetailBody x.1 x.2 (messages_all (chat_messages s x.1)).

(** ** Chat views (api/views.py) *)

(** [ChatListView.get_queryset] and [ChatDetailView.get_queryset]:
    [Chat.objects.filter(participants=user, is_active=True).distinct()]. *)
Definition user_chats (s : DB) (user : pk) : list (pk * Chat) :=
  remove_dups
    (filter (λ x, user ∈ chat_participants x.2 ∧ chat_is_active x.2 = true)
            (objects (chats s))).

(** [ChatListView] (a [ListAPIView]): the serialized queryset, in the model's
    ordering. *)
Definition ChatListView_list (s : DB) (user : pk) : DB * Response :=
  (s, mkResponse HTTP_200_OK
        (ChatListBody
           (ChatSerializer s (Some user)
              <$> merge_sort Chat_ordering (user_chats s user)))).

Definition set_is_read (m : Message) (b : bool) : Message :=
  mkMessage (msg_chat m) (msg_sender m) (msg_content m) (msg_created_at m) b.

(** [ChatDetailView.retrieve]: [get_object] takes the chat with key [id] from
    the view's queryset (404 if it has none), the messages of the others are
    marked as read, and the chat is rendered. *)
Definition ChatDetailView_retrieve (s : DB) (user : pk) (id : pk)
    : DB * Response :=
  match qs_get (user_chats s user) id with
  | None => (s, mkResponse HTTP_404_NOT_FOUND ErrorBody)
  | Some instance =>
    let s' := set_messages s
                (qs_update (unread_for s instance.1 user)
                           (λ m, set_is_read m true) (messages s)) in
    (s', mkResponse HTTP_200_OK (ChatDetailSerializer s' instance))
  end.

(** [chat.participants.add(u1, u2, ...)]: the through table holds one row per
    (chat, user), so adding a user twice adds them once. *)
Definition participants_add (c : Chat) (us : list pk) : Chat :=
  mkChat (list_to_set us ∪ chat_participants c) (chat_created_at c)
         (chat_updated_at c) (chat_is_active c).

(** The keyword arguments of the [filter] calls of [create_or_get_chat] and
    its copies: [participants=user] and [participants__count=n]. *)
Inductive ChatLookup :=
| Lookup_participants (user : pk)
| Lookup_participants__count (n : nat).

(** [queryset.filter(lookup)] on chats; [None] is the [FieldError] that
    [filter] raises when it cannot resolve the keyword.
    [participants=user] keeps the chats that have the user among their
    participants.  In [participants__count], [participants] is the relation
    to [User], and [count] is neither a field of [User] nor a lookup of the
    relation; no queryset of the repository is annotated with a [Count]; so
    the keyword is not resolved and [filter] raises as it is called, before
    any row is read. *)
Definition Chat_filter (lookup : ChatLookup) (qs : list (pk * Chat))
    : option (list (pk * Chat)) :=
  match lookup with
  | Lookup_participants user =>
    Some (filter (λ x, user ∈ chat_participants x.2) qs)
  | Lookup_participants__count _ => None
  end.

(** The lookup of [create_or_get_chat]:
    [Chat.objects.filter(participants=user).filter(participants=other)
         .filter(participants__count=2)]. *)
Definition existing_chats (s : DB) (user other : pk)
    : option (list (pk * Chat)) :=
  match Chat_filter (Lookup_participants user) (objects (chats s)) with
  | None => None
  | Some qs1 =>
    match Chat_filter (Lookup_participants other) qs1 with
    | None => None
    | Some qs2 => Chat_filter (Lookup_participants__count 2) qs2
    end
  end.

(** [create_or_get_chat(request)].  [user_id] is [request.data.get('user_id')]:
    [None] when the key is missing; a missing key and [0] are both falsy.
    An exception of the lookup leaves the view and is answered 500. *)
Definition create_or_get_chat (s : DB) (now : time) (user : pk)
    (user_id : option N) : DB * Response :=
  match user_id with
  | None | Some N0 => (s, mkResponse HTTP_400_BAD_REQUEST ErrorBody)
  | Some (Npos other_user) =>
    if decide (other_user ∈ users s) then
      match existing_chats s user other_user with
      | None => (s, mkResponse HTTP_500_INTERNAL_SERVER_ERROR ErrorBody)
      | Some queryset =>
        match chats_first queryset with
        | Some existing_chat =>
          (s, mkResponse HTTP_200_OK (ChatDetailSerializer s existing_chat))
        | None =>
          (* chat = Chat.objects.create() *)
          let cid := new_pk (chats s) in
          let chat := mkChat ∅ now now true in
          let s1 := set_chats s (<[cid := chat]> (chats s)) in
          (* chat.participants.add(request.user, other_user) *)
          let chat' := participants_add chat [user; other_user] in
          let s2 := set_chats s1 (<[cid := chat']> (chats s1)) in
          (s2, mkResponse HTTP_201_CREATED (ChatDetailSerializer s2 (cid, chat')))
        end
      end
    else (s, mkResponse HTTP_404_NOT_FOUND ErrorBody)
  end.

(** The request body of [MessageCreateView]: the writable fields of
    [MessageSerializer] are [content] and [is_read] ([id] and [created_at] are
    read-only, [sender] is a read-only nested serializer).  [content] is the
    text as the serializer field hands it on. *)
Record MessageData := mkMessageData {
  data_content : option string;
  data_is_read : option bool }.

(** [serializer.is_valid()]: [content] is a [TextField] without [blank=True],
    so it is required and may not be blank; [is_read] has a default and is
    optional. *)
Definition MessageSerializer_is_valid (d : MessageData)
    : option (string * option bool) :=
  match data_content d with
  | None => None
  | Some c => if decide (c = EmptyString) then None else Some (c, data_is_read d)
  end.

(** [chat.save()]: every field is written back, [updated_at] is [auto_now]. *)
Definition Chat_save (s : DB) (now : time) (id : pk) (c : Chat) : DB :=
  set_chats s
    (<[id := mkChat (chat_participants c) (chat_created_at c) now
                    (chat_is_active c)]> (chats s)).

(** [MessageCreateView.perform_create]; [None] is the [Http404] that
    [get_object_or_404] raises. *)
Definition MessageCreateView_perform_create (s : DB) (now : time) (user : pk)
    (chat_id : pk) (validated_data : string * option bool)
    : option (DB * (pk * Message)) :=
  match qs_get
          (filter (λ x, user ∈ chat_participants x.2 ∧ chat_is_active x.2 = true)
                  (objects (chats s))) chat_id with
  | None => None
  | Some (cid, chat) =>
    let m := mkMessage cid user validated_data.1 now
                       (default false validated_data.2) in
    let mid := new_pk (messages s) in
    let s1 := set_messages s (<[mid := m]> (messages s)) in
    Some (Chat_save s1 now cid chat, (mid, m))
  end.

(** [MessageCreateView] (a [CreateAPIView]): the body is validated first
    (400), then [perform_create] runs (404 or 201). *)
Definition MessageCreateView_create (s : DB) (now : time) (user : pk)
    (chat_id : pk) (d : MessageData) : DB * Response :=
  match MessageSerializer_is_valid d with
  | None => (s, mkResponse HTTP_400_BAD_REQUEST ErrorBody)
  | Some v =>
    match MessageCreateView_perform_create s now user chat_id v with
    | None => (s, mkResponse HTTP_404_NOT_FOUND ErrorBody)
    | Some (s', (mid, m)) => (s', mkResponse HTTP_201_CREATED (MessageBody mid m))
    end
  end.

(** ** Notions the statements use *)

(** A queryset over a table: each of its rows is a row of the table. *)
Definition qs_over {A} (tbl : gmap pk A) (qs : list (pk * A)) : Prop :=
  ∀ x, x ∈ qs → tbl !! x.1 = Some x.2.

(** The conversation a response renders, if it renders one. *)
Definition response_chat_id (r : Response) : option pk :=
  match data r with
  | ChatDetailBody id _ _ => Some id
  | _ => None
  end.

(** What [retrieve] does to one message: the unread messages of the
    conversation that the viewer did not send become read. *)
Definition mark_read (cid viewer : pk) (m : Message) : Message :=
  if decide (msg_chat m = cid ∧ msg_is_read m = false ∧ msg_sender m ≠ viewer)
  then set_is_read m true else m.

(** [likes_count] is a [PositiveIntegerField]: never negative. *)
Definition likes_count_nonneg (s : DB) : Prop :=
  ∀ i p, posts s !! i = Some p → (0 ≤ post_likes_count p)%Z.

(** [unique_together = ('user', 'post')]: two rows of [PostLike] with the same
    user and the same post are the same row. *)
Definition likes_unique (s : DB) : Prop :=
  ∀ i j l l', post_likes s !! i = Some l → post_likes s !! j = Some l' →
              like_user l = like_user l' → like_post l = like_post l' → i = j.

(** A sequence of calls, each with its time, its user and its post. *)
Definition toggle_likes (s : DB) (calls : list (time * pk * pk)) : DB :=
  foldl (λ s c, (toggle_like s c.1.1 c.1.2 c.2).1) s calls.

(** ** Example databases *)

(** Three users and nothing else. *)
Definition db0 : DB := mkDB {[1%positive; 2%positive; 3%positive]} ∅ ∅ ∅ ∅.

(** A database whose only conversation is between users 1 and 2 and has been
    deactivated. *)
Definition db_inactive : DB :=
  mkDB {[1%positive; 2%positive; 3%positive]} ∅ ∅
       {[1%positive := mkChat {[1%positive; 2%positive]} 3 3 false]} ∅.

(** A database with one active conversation, between users 1 and 2. *)
Definition db1 : DB :=
  mkDB {[1%positive; 2%positive; 3%positive]} ∅ ∅
       {[1%positive := mkChat {[1%positive; 2%positive]} 3 3 true]} ∅.

(** A database where user 1 has sent two messages to conversation 1 and
    user 2 one. *)
Definition db2 : DB :=
  mkDB {[1%positive; 2%positive; 3%positive]} ∅ ∅
       {[1%positive := mkChat {[1%positive; 2%positive]} 3 6 true]}
       (<[1%positive := mkMessage 1%positive 1%positive "hi" 4 false]>
          (<[2%positive := mkMessage 1%positive 2%positive "hello" 5 false]>
             {[3%positive := mkMessage 1%positive 1%positive "bye" 6 false]})).

(** A database with two active conversations: users 1 and 2, last written to
    at time 3, and users 2 and 3, last written to at time 9. *)
Definition db3 : DB :=
  mkDB {[1%positive; 2%positive; 3%positive]} ∅ ∅
       (<[1%positive := mkChat {[1%positive; 2%positive]} 3 3 true]>
          {[2%positive := mkChat {[2%positive; 3%positive]} 8 9 true]}) ∅.

(** Two users and one active post that nobody likes yet. *)
Definition db_posts : DB :=
  mkDB {[1%positive; 2%positive]}
       {[1%positive := mkPost 1%positive "post" 1 1 0%Z true]} ∅ ∅ ∅.

(** ** More of the post views and serializers *)

(** [PostSerializer.get_is_liked]:
    [PostLike.objects.filter(user=request.user, post=obj).exists()] when the
    serializer context has an authenticated user, [False] otherwise. *)
Definition get_is_liked (s : DB) (context : option pk) (post_id : pk) : bool :=
  match context with
  | Some user => bool_decide (likes_of s user post_id ≠ [])
  | None => false
  end.

(** [post.likes]: the related manager, [PostLike.objects.filter(post=post)]. *)
Definition Post_likes (s : DB) (post_id : pk) : list (pk * PostLike) :=
  filter (λ x, like_post x.2 = post_id) (objects (post_likes s)).

(** The counter of every post is the number of likes the post has. *)
Definition likes_count_consistent (s : DB) : Prop :=
  ∀ i p, posts s !! i = Some p →
         post_likes_count p = Z.of_nat (length (Post_likes s i)).

(** ** Admin views (api/views.py) and admin actions (api/admin.py) *)

(** What the admin views answer with: a status and a JSON object. *)
Inductive AdminBody :=
| ServerError
| NotFoundDetail
| ErrorMessage (error : string)
| InfoMessage (message : string)
| ChatInitiated (chat_id : pk) (message_id : pk) (message : Message).

Record AdminResponse := mkAdminResponse {
  admin_status : Status;
  admin_data : AdminBody }.

Definition set_post_is_active (p : Post) (b : bool) : Post :=
  mkPost (post_author p) (post_content p) (post_created_at p)
         (post_updated_at p) (post_likes_count p) b.

(** [admin_delete_post(request, post_id)]; [is_staff] is
    [request.user.is_staff].  The post is looked up among all posts, active
    or not. *)
Definition admin_delete_post (s : DB) (now : time) (is_staff : bool)
    (post_id : pk) : DB * AdminResponse :=
  if negb is_staff then
    (s, mkAdminResponse HTTP_403_FORBIDDEN (ErrorMessage "Admin access required"))
  else
    match qs_get (objects (posts s)) post_id with
    | None => (s, mkAdminResponse HTTP_404_NOT_FOUND NotFoundDetail)
    | Some (_, post) =>
      (Post_save s now post_id (set_post_is_active post false),
       mkAdminResponse HTTP_200_OK (InfoMessage "Post deactivated successfully"))
    end.

(** The queryset an admin action receives: the rows whose keys were selected
    in the change list. *)
Definition selected_rows {A} (tbl : gmap pk A) (selected : list pk)
    : list (pk * A) :=
  filter (λ x, x.1 ∈ selected) (objects tbl).

(** [PostAdmin.deactivate_posts]: [queryset.update(is_active=False)]; the
    number is the [updated] count that the message to the admin reports.
    [update] writes the one column and does not run [auto_now]. *)
Definition deactivate_posts (s : DB) (selected : list pk) : DB * nat :=
  let queryset := selected_rows (posts s) selected in
  (set_posts s (qs_update queryset (λ p, set_post_is_active p false) (posts s)),
   length queryset).

(** [PostAdmin.activate_posts]: [queryset.update(is_active=True)]. *)
Definition activate_posts (s : DB) (selected : list pk) : DB * nat :=
  let queryset := selected_rows (posts s) selected in
  (set_posts s (qs_update queryset (λ p, set_post_is_active p true) (posts s)),
   length queryset).

(** [admin_initiate_chat(request)].  [user_id] and [message] are
    [request.data.get('user_id')] and [request.data.get('message', ...)]:
    [None] when the key is missing.  The message is written with
    [Message.objects.create], which neither validates the content nor saves
    the chat.  An exception of the lookup leaves the view and is answered
    500. *)
Definition admin_initiate_chat (s : DB) (now : time) (user : pk)
    (is_staff : bool) (user_id : option N) (message : option string)
    : DB * AdminResponse :=
  if negb is_staff then
    (s, mkAdminResponse HTTP_403_FORBIDDEN (ErrorMessage "Admin access required"))
  else
    let message_content :=
      default "Hello! This is an admin message." message in
    match user_id with
    | None | Some N0 =>
      (s, mkAdminResponse HTTP_400_BAD_REQUEST (ErrorMessage "user_id is required"))
    | Some (Npos target_user) =>
      if decide (target_user ∈ users s) then
        match existing_chats s user target_user with
        | None => (s, mkAdminResponse HTTP_500_INTERNAL_SERVER_ERROR ServerError)
        | Some queryset =>
          let '(s1, cid) :=
            match chats_first queryset with
            | Some existing_chat => (s, existing_chat.1)
            | None =>
              let cid := new_pk (chats s) in
              let chat := mkChat ∅ now now true in
              let s1 := set_chats s (<[cid := chat]> (chats s)) in
              let chat' := participants_add chat [user; target_user] in
              (set_chats s1 (<[cid := chat']> (chats s1)), cid)
            end in
          let m := mkMessage cid user message_content now false in
          let mid := new_pk (messages s1) in
          (set_messages s1 (<[mid := m]> (messages s1)),
           mkAdminResponse HTTP_201_CREATED (ChatInitiated cid mid m))
        end
      else (s, mkAdminResponse HTTP_404_NOT_FOUND NotFoundDetail)
    end.

(** A [for] loop over [l] whose rounds may raise.  The rounds run in order,
    each on the database the one before left; the result is the database at
    the end, or when a round raised, and the accumulator unless a round
    raised. *)
Fixpoint for_each {A B} (body : DB → B → A → DB * option B) (s : DB) (acc : B)
    (l : list A) : DB * option B :=
  match l with
  | [] => (s, Some acc)
  | x :: l =>
    match body s acc x with
    | (s', Some acc') => for_each body s' acc' l
    | (s', None) => (s', None)
    end
  end.

(** The body of the loops of the two admin actions below: look for the
    conversation of the admin and [user]; when there is none, create it and
    send the admin's opening message with [Message.objects.create].  The
    flag tells whether a conversation was created; [None] is the exception
    of the lookup. *)
Definition initiate_chat_with (s : DB) (now : time) (admin user : pk)
    (content : string) : DB * option bool :=
  match existing_chats s admin user with
  | None => (s, None)
  | Some queryset =>
    match chats_first queryset with
    | Some _ => (s, Some false)
    | None =>
      let cid := new_pk (chats s) in
      let chat := mkChat ∅ now now true in
      let s1 := set_chats s (<[cid := chat]> (chats s)) in
      let chat' := participants_add chat [admin; user] in
      let s2 := set_chats s1 (<[cid := chat']> (chats s1)) in
      let m := mkMessage cid admin content now false in
      (set_messages s2 (<[new_pk (messages s2) := m]> (messages s2)), Some true)
    end
  end.

(** [UserAdmin.initiate_admin_chat(request, queryset)]: [queryset] is the
    list of the selected users, [username] gives [user.username], and the
    number is the [queryset.count()] of the message to the admin, which is
    sent unless the loop raised. *)
Definition UserAdmin_initiate_admin_chat (username : pk → string) (s : DB)
    (now : time) (admin : pk) (queryset : list pk) : DB * option nat :=
  let r :=
    for_each
      (λ s (_ : unit) user,
         let r := initiate_chat_with s now admin user
                    ("Hello " +:+ username user
                     +:+ ", this is an admin message. How can we help you today?") in
         (r.1, (λ _, ()) <$> r.2))
      s () queryset in
  (r.1, (λ _, length queryset) <$> r.2).

(** [chat.participants.exclude(id=admin)], read when the loop reaches the
    chat. *)
Definition participants_exclude (s : DB) (chat_id admin : pk) : list pk :=
  elements (default ∅ (chat_participants <$> chats s !! chat_id) ∖ {[admin]}).

(** [ChatAdmin.initiate_admin_chat_with_participants(request, queryset)]:
    [selected] are the keys of the selected chats; the number is the
    [initiated_count] of the message to the admin, which is sent unless a
    loop raised. *)
Definition initiate_admin_chat_with_participants (username : pk → string)
    (s : DB) (now : time) (admin : pk) (selected : list pk)
    : DB * option nat :=
  for_each
    (λ s initiated_count (chat : pk * Chat),
       for_each
         (λ s initiated_count participant,
            let r := initiate_chat_with s now admin participant
                       ("Hello " +:+ username participant
                        +:+ ", this is an admin message regarding your recent activity.") in
            (r.1, (λ created : bool,
                     if created then S initiated_count else initiated_count)
                  <$> r.2))
         s initiated_count (participants_exclude s chat.1 admin))
    s 0 (selected_rows (chats s) selected).

(** ** Content previews of the admin change lists (api/admin.py) *)

(** [PostAdmin.content_preview]:
    [obj.content[:100] + '...' if len(obj.content) > 100 else obj.content]. *)
Definition PostAdmin_content_preview (content : string) : string :=
  if decide (100 < String.length content)
  then String.substring 0 100 content +:+ "..." else content.

(** [CommentAdmin.content_preview], with 50 for 100. *)
Definition CommentAdmin_content_preview (content : string) : string :=
  if decide (50 < String.length content)
  then String.substring 0 50 content +:+ "..." else content.

(** [MessageAdmin.content_preview], on a message. *)
Definition MessageAdmin_content_preview (obj : Message) : string :=
  if decide (50 < String.length (msg_content obj))
  then String.substring 0 50 (msg_content obj) +:+ "..." else msg_content obj.

(** ** Login (api/serializers.py) *)

(** The columns of [User] that [LoginSerializer] reads; [acc_password] is the
    stored password hash. *)
Record Account := mkAccount {
  acc_email : string;
  acc_user_type : string;
  acc_password : string;
  acc_is_active : bool }.

(** The validated fields handed to [LoginSerializer.validate]. *)
Record LoginAttrs := mkLoginAttrs {
  attrs_email : option string;
  attrs_password : option string;
  attrs_user_type : option string }.

(** The three messages of the [ValidationError]s of [validate]. *)
Inductive LoginError :=
| Invalid_credentials
| User_account_is_disabled
| Must_include_email_and_password.

(** Python truth of [attrs.get(key)]: [None] and the empty string are
    false. *)
Definition truthy (o : option string) : bool :=
  match o with
  | Some EmptyString | None => false
  | Some _ => true
  end.

(** [LoginSerializer.validate(attrs)].  [check_password u password] is
    [u.check_password(password)], the password hasher of the framework;
    [accounts] is the user table.  The result is the error raised, or the
    user put in [attrs['user']]. *)
Definition LoginSerializer_validate (check_password : Account → string → bool)
    (accounts : gmap pk Account) (attrs : LoginAttrs)
    : LoginError + pk * Account :=
  if truthy (attrs_email attrs) && truthy (attrs_password attrs) then
    let email := default EmptyString (attrs_email attrs) in
    let password := default EmptyString (attrs_password attrs) in
    let users :=
      filter (λ x, acc_email x.2 = email
                   ∧ Some (acc_user_type x.2) = attrs_user_type attrs)
             (objects accounts) in
    match users with
    | [] => inl Invalid_credentials
    | _ =>
      match head (filter (λ x, check_password x.2 password = true) users) with
      | Some user =>
        if acc_is_active user.2 then inr user
        else inl User_account_is_disabled
      | None => inl Invalid_credentials
      end
    end
  else inl Must_include_email_and_password.

(** ** [User.save] (api/models.py) *)

(** The columns of [User] that [save] reads and writes. *)
Record UserNames := mkUserNames {
  first_name : string;
  username : string;
  avatar : string }.

(** [x or y] on strings. *)
Definition str_or (x y : string) : string :=
  match x with EmptyString => y | _ => x end.

(** The avatar that [User.save] stores: when there is none yet and there is a
    first name or a username, the first character of that name in upper
    case.  [upper] is [str.upper]. *)
Definition User_save (upper : string → string) (u : UserNames) : UserNames :=
  match avatar u, str_or (first_name u) (username u) with
  | EmptyString, String c _ =>
    mkUserNames (first_name u) (username u) (upper (String c EmptyString))
  | _, _ => u
  end.

(** ** Creating posts ([PostListCreateView], [PostSerializer]) *)

(** The request body of a post: the writable fields of [PostSerializer] are
    [content] and [is_active]; [id], [created_at], [updated_at] and
    [likes_count] are read-only, [author] and [comments] are read-only nested
    serializers.  As in [MessageData], [pdata_content] is the text as the
    serializer field hands it on, that is with the surrounding white space
    already trimmed: a body whose content is white space only arrives here as
    the empty text. *)
Record PostData := mkPostData {
  pdata_content : option string;
  pdata_is_active : option bool }.

(** [serializer.is_valid()]: [content] is a [TextField] without [blank=True],
    so it is required and, once trimmed, may not be blank; [is_active] has a
    default. *)
Definition PostSerializer_is_valid (d : PostData)
    : option (string * option bool) :=
  match pdata_content d with
  | None => None
  | Some c => if decide (c = EmptyString) then None else Some (c, pdata_is_active d)
  end.

(** What [PostSerializer] renders of a post that has no comments yet. *)
Inductive PostBody :=
| PostErrors
| PostRendered (id : pk) (p : Post) (is_liked : bool).

Record PostResponse := mkPostResponse {
  post_status : Status;
  post_data : PostBody }.

(** [PostListCreateView] on POST (a [ListCreateAPIView]): the body is
    validated, then [perform_create] saves it with [author=request.user];
    [created_at], [likes_count] and [is_active] take the model defaults
    unless the body gives [is_active]. *)
Definition PostListCreateView_create (s : DB) (now : time) (user : pk)
    (d : PostData) : DB * PostResponse :=
  match PostSerializer_is_valid d with
  | None => (s, mkPostResponse HTTP_400_BAD_REQUEST PostErrors)
  | Some v =>
    let p := mkPost user v.1 now now 0%Z (default true v.2) in
    let id := new_pk (posts s) in
    let s' := set_posts s (<[id := p]> (posts s)) in
    (s', mkPostResponse HTTP_201_CREATED
           (PostRendered id p (get_is_liked s' (Some user) id)))
  end.

(** Every like is a like of a post of the table (the foreign key of
    [PostLike.post]). *)
Definition likes_refer_to_posts (s : DB) : Prop :=
  ∀ j l, post_likes s !! j = Some l → is_Some (posts s !! like_post l).

(** ** Sequences of requests *)

(** The requests to the views above. *)
Inductive Request :=
| Toggle_like (user post_id : pk)
| Post_create (user : pk) (d : PostData)
| Chat_list (user : pk)
| Chat_detail (user id : pk)
| Create_or_get_chat (user : pk) (user_id : option N)
| Message_create (user chat_id : pk) (d : MessageData)
| Admin_delete_post (is_staff : bool) (post_id : pk)
| Admin_initiate_chat (user : pk) (is_staff : bool) (user_id : option N)
                      (message : option string).

(** The database after the view has answered the request at time [now]. *)
Definition handle (s : DB) (now : time) (req : Request) : DB :=
  match req with
  | Toggle_like user post_id => (toggle_like s now user post_id).1
  | Post_create user d => (PostListCreateView_create s now user d).1
  | Chat_list user => (ChatListView_list s user).1
  | Chat_detail user id => (ChatDetailView_retrieve s user id).1
  | Create_or_get_chat user user_id => (create_or_get_chat s now user user_id).1
  | Message_create user chat_id d =>
    (MessageCreateView_create s now user chat_id d).1
  | Admin_delete_post is_staff post_id =>
    (admin_delete_post s now is_staff post_id).1
  | Admin_initiate_chat user is_staff user_id message =>
    (admin_initiate_chat s now user is_staff user_id message).1
  end.

(** The database after a sequence of requests, each with its time. *)
Definition handle_all (s : DB) (reqs : list (time * Request)) : DB :=
  foldl (λ s r, handle s r.1 r.2) s reqs.

(** Message [m'] is message [m] with, at most, its read flag raised. *)
Definition message_kept (m m' : Message) : Prop :=
  msg_chat m' = msg_chat m ∧ msg_sender m' = msg_sender m
  ∧ msg_content m' = msg_content m ∧ msg_created_at m' = msg_created_at m
  ∧ (msg_is_read m = true → msg_is_read m' = true).

(** Every message of [s] is kept in [s']. *)
Definition messages_kept (s s' : DB) : Prop :=
  ∀ j m, messages s !! j = Some m →
         ∃ m', messages s' !! j = Some m' ∧ message_kept m m'.

(** Every conversation of [s] is in [s'] with the same participants, creation
    time and [is_active] flag. *)
Definition chats_kept (s s' : DB) : Prop :=
  ∀ j c, chats s !! j = Some c →
         ∃ c', chats s' !! j = Some c'
               ∧ chat_participants c' = chat_participants c
               ∧ chat_created_at c' = chat_created_at c
               ∧ chat_is_active c' = chat_is_active c.

(** ** Facts about the object-relational layer *)

Section orm.
Context {A : Type}.
Implicit Types (tbl : gmap pk A) (qs : list (pk * A)) (x : pk * A).

Lemma elem_of_objects tbl i row : (i, row) ∈ objects tbl ↔ tbl !! i = Some row.
Proof. apply elem_of_map_to_list. Qed.

Lemma elem_of_objects' tbl x : x ∈ objects tbl ↔ tbl !! x.1 = Some x.2.
Proof. destruct x. apply elem_of_objects. Qed.

Lemma new_pk_fresh tbl : tbl !! new_pk tbl = None.
Proof. apply not_elem_of_dom. unfold new_pk. apply is_fresh. Qed.

Lemma qs_over_objects tbl : qs_over tbl (objects tbl).
Proof. intros x. by rewrite elem_of_objects'. Qed.

Lemma qs_over_filter tbl qs (P : pk * A → Prop) `{!∀ x, Decision (P x)} :
  qs_over tbl qs → qs_over tbl (filter P qs).
Proof. intros Hq x [_ Hx]%list_elem_of_filter. by apply Hq. Qed.

Lemma qs_get_Some qs i x : qs_get qs i = Some x → x.1 = i ∧ x ∈ qs.
Proof.
  unfold qs_get. intros H%head_Some_elem_of.
  by apply list_elem_of_filter in H.
Qed.

Lemma qs_get_None qs i : qs_get qs i = None ↔ ∀ row, (i, row) ∉ qs.
Proof.
  unfold qs_get. rewrite head_None. split.
  - intros H row Hin.
    assert ((i, row) ∈ filter (λ x : pk * A, x.1 = i) qs) as Hf
      by (by apply list_elem_of_filter).
    rewrite H in Hf. by apply not_elem_of_nil in Hf.
  - intros H. apply elem_of_nil_inv. intros [j row].
    rewrite list_elem_of_filter. simpl. intros [-> Hin]. by apply (H row).
Qed.

Lemma qs_get_elem tbl qs i row :
  qs_over tbl qs → (i, row) ∈ qs → qs_get qs i = Some (i, row).
Proof.
  intros Hover Hin. destruct (qs_get qs i) as [[j row']|] eqn:E.
  - apply qs_get_Some in E as [Hj Hin']. simpl in Hj. subst j.
    apply Hover in Hin, Hin'. simpl in *. congruence.
  - rewrite qs_get_None in E. by destruct (E row).
Qed.

Lemma lookup_qs_update `{!EqDecision A} qs (f : A → A) tbl i :
  qs_update qs f tbl !! i
  = (λ row, if decide ((i, row) ∈ qs) then f row else row) <$> tbl !! i.
Proof. unfold qs_update. rewrite map_lookup_imap. by destruct (tbl !! i). Qed.
End orm.

Lemma chats_first_elem qs x : chats_first qs = Some x → x ∈ qs.
Proof.
  unfold chats_first. intros H%head_Some_elem_of.
  by rewrite merge_sort_Permutation in H.
Qed.

Lemma chats_first_None qs : chats_first qs = None ↔ qs = [].
Proof.
  unfold chats_first. rewrite head_None. split.
  - intros H. apply Permutation_nil_r. by rewrite <- H, merge_sort_Permutation.
  - by intros ->.
Qed.

(** ** [create_or_get_chat] *)

(** The third [filter] of the lookup raises whatever the first two kept. *)
Lemma existing_chats_raises s user other : existing_chats s user other = None.
Proof. done. Qed.

(** Past the lookup of the user, the view is answered 500 and has written
    nothing. *)
Lemma create_or_get_chat_raises s now user other :
  other ∈ users s →
  create_or_get_chat s now user (Some (Npos other))
  = (s, mkResponse HTTP_500_INTERNAL_SERVER_ERROR ErrorBody).
Proof.
  intros Hin. unfold create_or_get_chat.
  by rewrite decide_True, existing_chats_raises by done.
Qed.

Lemma create_or_get_chat_unchanged s now user user_id :
  (create_or_get_chat s now user user_id).1 = s.
Proof.
  unfold create_or_get_chat. destruct user_id as [[|other]|]; try done.
  destruct (decide _); [|done]. by rewrite existing_chats_raises.
Qed.

(** C1 (the code at the claim's inputs): for distinct accounts A and B, B
    existing, [create_or_get_chat] neither finds nor creates a conversation.
    The filter on [participants__count] raises while the lookup is built, so
    the call is answered 500, renders no conversation and leaves the database
    as it was; a second call in succession does the same. *)
Theorem create_or_get_chat_pair_raises s now now' A B :
  A ≠ B → B ∈ users s →
  let r := create_or_get_chat s now A (Some (Npos B)) in
  let r' := create_or_get_chat r.1 now' A (Some (Npos B)) in
  r = (s, mkResponse HTTP_500_INTERNAL_SERVER_ERROR ErrorBody)
  ∧ r' = (s, mkResponse HTTP_500_INTERNAL_SERVER_ERROR ErrorBody)
  ∧ response_chat_id r.2 = None
  ∧ response_chat_id r'.2 = None
  ∧ chats r'.1 = chats s.
Proof.
  intros _ HB r r'. subst r' r.
  rewrite (create_or_get_chat_raises s now A B HB). cbn [fst snd].
  by rewrite (create_or_get_chat_raises s now' A B HB).
Qed.

Lemma create_or_get_chat_pair_raises_witness :
  create_or_get_chat db0 5 1%positive (Some 2%N)
  = (db0, mkResponse HTTP_500_INTERNAL_SERVER_ERROR ErrorBody).
Proof.
  assert ((1 : pk) ≠ 2)%positive as Hne by done.
  assert ((2 : pk)%positive ∈ users db0) as HB by (by vm_compute).
  destruct (create_or_get_chat_pair_raises db0 5 6 1 2 Hne HB) as (H & _).
  exact H.
Defined.

(** C7 (the code at the claim's inputs): for distinct existing accounts A
    and B, neither the call by A for B nor the call by B for A returns a
    conversation: both are answered 500 by the exception of the lookup,
    render no conversation and leave the database as it was, also when B
    calls after A. *)
Theorem create_or_get_chat_unordered_raises s now now' A B :
  A ≠ B → A ∈ users s → B ∈ users s →
  let r := create_or_get_chat s now A (Some (Npos B)) in
  let r' := create_or_get_chat r.1 now' B (Some (Npos A)) in
  r = (s, mkResponse HTTP_500_INTERNAL_SERVER_ERROR ErrorBody)
  ∧ r' = (s, mkResponse HTTP_500_INTERNAL_SERVER_ERROR ErrorBody)
  ∧ create_or_get_chat s now B (Some (Npos A))
    = (s, mkResponse HTTP_500_INTERNAL_SERVER_ERROR ErrorBody)
  ∧ response_chat_id r.2 = None
  ∧ response_chat_id r'.2 = None.
Proof.
  intros _ HA HB r r'. subst r' r.
  rewrite (create_or_get_chat_raises s now A B HB). cbn [fst snd].
  rewrite (create_or_get_chat_raises s now' B A HA).
  by rewrite (create_or_get_chat_raises s now B A HA).
Qed.

Lemma create_or_get_chat_unordered_raises_witness :
  create_or_get_chat db1 5 2%positive (Some 1%N)
  = (db1, mkResponse HTTP_500_INTERNAL_SERVER_ERROR ErrorBody).
Proof.
  assert ((1 : pk) ≠ 2)%positive as Hne by done.
  assert ((1 : pk)%positive ∈ users db1) as HA by (by vm_compute).
  assert ((2 : pk)%positive ∈ users db1) as HB by (by vm_compute).
  destruct (create_or_get_chat_unordered_raises db1 5 6 1 2 Hne HA HB)
    as (_ & _ & H & _).
  exact H.
Defined.

(** C3 (as the code has it): [create_or_get_chat] answers 400 exactly when
    [user_id] is missing or falsy, and then leaves the database as it was.
    It has no check that the two accounts differ: a call of an account for
    itself is never answered 400. *)
Theorem create_or_get_chat_bad_request s now A user_id :
  (status (create_or_get_chat s now A user_id).2 = HTTP_400_BAD_REQUEST
   ↔ user_id = None ∨ user_id = Some 0%N)
  ∧ (status (create_or_get_chat s now A user_id).2 = HTTP_400_BAD_REQUEST
     → (create_or_get_chat s now A user_id).1 = s)
  ∧ status (create_or_get_chat s now A (Some (Npos A))).2
    ≠ HTTP_400_BAD_REQUEST.
Proof.
  split; [|split].
  - unfold create_or_get_chat. destruct user_id as [[|B]|].
    + split; [by right|done].
    + split; [|by intros [|]].
      destruct (decide _); [|done]. by rewrite existing_chats_raises.
    + split; [by left|done].
  - intros _. apply create_or_get_chat_unchanged.
  - unfold create_or_get_chat. destruct (decide _); [|done].
    by rewrite existing_chats_raises.
Qed.

Lemma create_or_get_chat_bad_request_witness :
  (create_or_get_chat db0 5 1%positive None).1 = db0.
Proof.
  destruct (create_or_get_chat_bad_request db0 5 1 None) as (_ & H & _).
  by apply H.
Defined.

(** C3, the counterexample: the existing user 1 asks for a conversation with
    user 1.  The call is not answered 400: the lookup raises and the answer
    is 500. *)
Lemma create_or_get_chat_self_not_rejected :
  (1%positive ∈ users db0)
  ∧ status (create_or_get_chat db0 5 1%positive (Some 1%N)).2
    = HTTP_500_INTERNAL_SERVER_ERROR
  ∧ status (create_or_get_chat db0 5 1%positive (Some 1%N)).2
    ≠ HTTP_400_BAD_REQUEST.
Proof. by vm_compute. Qed.

(** ** Looking a row up in a filtered queryset *)

Lemma qs_get_filter_objects {A} (tbl : gmap pk A) (P : pk * A → Prop)
    `{!∀ x, Decision (P x)} (i : pk) :
  qs_get (filter P (objects tbl)) i
  = match tbl !! i with
    | Some row => if decide (P (i, row)) then Some (i, row) else None
    | None => None
    end.
Proof.
  pose proof (qs_over_filter tbl _ P (qs_over_objects tbl)) as Hover.
  destruct (tbl !! i) as [row|] eqn:E.
  - destruct (decide (P (i, row))) as [HP|HP].
    + apply (qs_get_elem tbl); [done|].
      apply list_elem_of_filter. by rewrite elem_of_objects.
    + apply qs_get_None. intros row' [HP' Hin]%list_elem_of_filter.
      apply elem_of_objects in Hin. congruence.
  - apply qs_get_None. intros row' [_ Hin]%list_elem_of_filter.
    apply elem_of_objects in Hin. congruence.
Qed.

(** [distinct()] leaves a queryset without repeated rows as it is. *)
Lemma distinct_id {A} `{!EqDecision A} (l : list A) :
  NoDup l → remove_dups l = l.
Proof.
  induction 1 as [|x l Hx Hl IH]; simpl; [done|].
  destruct (decide_rel elem_of x l); [done|]. by rewrite IH.
Qed.

Lemma user_chats_eq s user :
  user_chats s user
  = filter (λ x, user ∈ chat_participants x.2 ∧ chat_is_active x.2 = true)
           (objects (chats s)).
Proof. apply distinct_id, NoDup_filter, NoDup_map_to_list. Qed.

Lemma qs_get_user_chats s user i :
  qs_get (user_chats s user) i
  = match chats s !! i with
    | Some c =>
      if decide (user ∈ chat_participants c ∧ chat_is_active c = true)
      then Some (i, c) else None
    | None => None
    end.
Proof.
  pose proof (qs_get_filter_objects (chats s)
    (λ x, user ∈ chat_participants x.2 ∧ chat_is_active x.2 = true) i) as Hget.
  simpl in Hget. rewrite <- Hget.
  by rewrite user_chats_eq.
Qed.

(** ** [MessageCreateView] *)

Lemma perform_create_eq s now user chat_id v :
  MessageCreateView_perform_create s now user chat_id v
  = match chats s !! chat_id with
    | Some chat =>
      if decide (user ∈ chat_participants chat ∧ chat_is_active chat = true)
      then
        let m := mkMessage chat_id user v.1 now (default false v.2) in
        let mid := new_pk (messages s) in
        Some (Chat_save (set_messages s (<[mid := m]> (messages s)))
                        now chat_id chat, (mid, m))
      else None
    | None => None
    end.
Proof.
  unfold MessageCreateView_perform_create.
  rewrite (qs_get_filter_objects (chats s)
    (λ x, user ∈ chat_participants x.2 ∧ chat_is_active x.2 = true)).
  destruct (chats s !! chat_id) as [chat|]; [|done]. simpl.
  by destruct (decide _).
Qed.

(** C2 (as the code has it): no call to [MessageCreateView] is answered 403.
    With a valid body, a sender who is not a participant, an inactive
    conversation and an absent conversation are all answered 404 alike, and
    the database is left as it was. *)
Theorem MessageCreateView_not_found s now user chat_id d :
  status (MessageCreateView_create s now user chat_id d).2 ≠ HTTP_403_FORBIDDEN
  ∧ (is_Some (MessageSerializer_is_valid d) →
     (chats s !! chat_id = None
      ∨ ∃ chat, chats s !! chat_id = Some chat
                ∧ (user ∉ chat_participants chat ∨ chat_is_active chat = false)) →
     MessageCreateView_create s now user chat_id d
     = (s, mkResponse HTTP_404_NOT_FOUND ErrorBody)).
Proof.
  unfold MessageCreateView_create. split.
  - destruct (MessageSerializer_is_valid d) as [v|]; [|done].
    by destruct (MessageCreateView_perform_create s now user chat_id v)
      as [[s' [mid m]]|].
  - intros [v ->] Hbad. rewrite perform_create_eq.
    destruct Hbad as [-> | (chat & -> & Hbad)]; [done|].
    rewrite decide_False; [done|].
    intros [Hin Hact]. destruct Hbad as [?|Hina]; [done|congruence].
Qed.

Lemma MessageCreateView_not_found_witness :
  MessageCreateView_create db1 7 3%positive 1%positive
    (mkMessageData (Some "x") None)
  = (db1, mkResponse HTTP_404_NOT_FOUND ErrorBody).
Proof.
  apply (MessageCreateView_not_found db1 7 3 1 (mkMessageData (Some "x") None)).
  - by eexists.
  - right. eexists. split; [by vm_compute|]. left. by vm_compute.
Defined.

(** C2, the counterexample: user 3 is not a participant of the active
    conversation 1 and sends "x" to it.  The answer is 404, not 403. *)
Lemma MessageCreateView_outsider_not_forbidden :
  (3%positive ∈ users db1)
  ∧ chats db1 !! 1%positive
    = Some (mkChat {[1%positive; 2%positive]} 3 3 true)
  ∧ status (MessageCreateView_create db1 7 3%positive 1%positive
              (mkMessageData (Some "x") None)).2 = HTTP_404_NOT_FOUND
  ∧ status (MessageCreateView_create db1 7 3%positive 1%positive
              (mkMessageData (Some "x") None)).2 ≠ HTTP_403_FORBIDDEN.
Proof. by vm_compute. Qed.

(** C8: a body whose content is empty (or missing) is answered 400 and the
    database is left as it was; whenever the message table changes, the
    content sent was not empty. *)
Theorem MessageCreateView_empty_content s now user chat_id d :
  ((data_content d = Some EmptyString ∨ data_content d = None) →
   MessageCreateView_create s now user chat_id d
   = (s, mkResponse HTTP_400_BAD_REQUEST ErrorBody))
  ∧ (messages (MessageCreateView_create s now user chat_id d).1 ≠ messages s →
     ∃ c, data_content d = Some c ∧ c ≠ EmptyString).
Proof.
  unfold MessageCreateView_create, MessageSerializer_is_valid. split.
  - by intros [-> | ->].
  - destruct (data_content d) as [c|]; [|done].
    destruct (decide (c = EmptyString)); [done|]. intros _. by exists c.
Qed.

Lemma MessageCreateView_empty_content_witness :
  MessageCreateView_create db1 7 1%positive 1%positive
    (mkMessageData (Some EmptyString) None)
  = (db1, mkResponse HTTP_400_BAD_REQUEST ErrorBody).
Proof.
  apply (MessageCreateView_empty_content db1 7 1 1
           (mkMessageData (Some EmptyString) None)).
  by left.
Defined.

(** What a valid call to [MessageCreateView] does. *)
Lemma MessageCreateView_create_valid s now user chat_id content is_read chat :
  content ≠ EmptyString →
  chats s !! chat_id = Some chat →
  user ∈ chat_participants chat →
  chat_is_active chat = true →
  let mid := new_pk (messages s) in
  let m := mkMessage chat_id user content now (default false is_read) in
  MessageCreateView_create s now user chat_id
    (mkMessageData (Some content) is_read)
  = (mkDB (users s) (posts s) (post_likes s)
          (<[chat_id := mkChat (chat_participants chat) (chat_created_at chat)
                               now (chat_is_active chat)]> (chats s))
          (<[mid := m]> (messages s)),
     mkResponse HTTP_201_CREATED (MessageBody mid m)).
Proof.
  intros Hc Hchat Hin Hact.
  unfold MessageCreateView_create, MessageSerializer_is_valid. simpl.
  rewrite decide_False by done. rewrite perform_create_eq, Hchat.
  by rewrite decide_True.
Qed.

(** C6 (as the code has it): a valid call creates one new message, in that
    conversation, from that sender, with that content, created at the time of
    the call; its read flag is the [is_read] of the request body, and false
    when the body has none.  The conversation's [updated_at] becomes the time
    of the call; no other conversation and no existing message is modified,
    nor any other table. *)
Theorem MessageCreateView_effect s now user chat_id content is_read chat :
  content ≠ EmptyString →
  chats s !! chat_id = Some chat →
  user ∈ chat_participants chat →
  chat_is_active chat = true →
  let r := MessageCreateView_create s now user chat_id
             (mkMessageData (Some content) is_read) in
  let m := mkMessage chat_id user content now (default false is_read) in
  ∃ mid,
    messages s !! mid = None
    ∧ r.2 = mkResponse HTTP_201_CREATED (MessageBody mid m)
    ∧ messages r.1 = <[mid := m]> (messages s)
    ∧ (∀ j m', messages s !! j = Some m' → messages r.1 !! j = Some m')
    ∧ chats r.1 !! chat_id
      = Some (mkChat (chat_participants chat) (chat_created_at chat) now
                     (chat_is_active chat))
    ∧ (∀ j, j ≠ chat_id → chats r.1 !! j = chats s !! j)
    ∧ users r.1 = users s ∧ posts r.1 = posts s
    ∧ post_likes r.1 = post_likes s.
Proof.
  intros Hc Hchat Hin Hact r m. subst r.
  rewrite (MessageCreateView_create_valid s now user chat_id content is_read chat)
    by done.
  exists (new_pk (messages s)). simpl.
  pose proof (new_pk_fresh (messages s)) as Hfresh.
  split; [done|]. split; [done|]. split; [done|]. split.
  { intros j m' Hj. rewrite lookup_insert_ne; [done|]. congruence. }
  split; [by rewrite lookup_insert_eq|]. split; [|done].
  intros j Hj. by rewrite lookup_insert_ne.
Qed.

Lemma MessageCreateView_effect_witness :
  let r := MessageCreateView_create db1 7 1%positive 1%positive
             (mkMessageData (Some "hi") None) in
  ∃ mid,
    messages db1 !! mid = None
    ∧ r.2 = mkResponse HTTP_201_CREATED
              (MessageBody mid (mkMessage 1%positive 1%positive "hi" 7 false)).
Proof.
  destruct (MessageCreateView_effect db1 7 1 1 "hi" None
              (mkChat {[1%positive; 2%positive]} 3 3 true))
    as (mid & H1 & H2 & _); [done|by vm_compute|by vm_compute|done|].
  exists mid. by split.
Defined.

(** C6, the counterexample: user 1 sends "hi" to the active conversation 1
    with [is_read] set in the body.  The call is valid (201) and the message
    it creates is already read. *)
Lemma MessageCreateView_creates_read_message :
  let r := MessageCreateView_create db1 7 1%positive 1%positive
             (mkMessageData (Some "hi") (Some true)) in
  status r.2 = HTTP_201_CREATED
  ∧ messages db1 = ∅
  ∧ messages r.1
    = {[1%positive := mkMessage 1%positive 1%positive "hi" 7 true]}.
Proof. by vm_compute. Qed.

(** ** [ChatSerializer]: last message and unread count *)

Global Instance Message_ordering_flip_total : Total (flip Message_ordering).
Proof. intros x y. unfold flip, Message_ordering. lia. Qed.
Global Instance Message_ordering_flip_trans : Transitive (flip Message_ordering).
Proof. intros x y z. unfold flip, Message_ordering. lia. Qed.

Lemma messages_last_elem qs x : messages_last qs = Some x → x ∈ qs.
Proof.
  unfold messages_last. intros H%head_Some_elem_of.
  by rewrite merge_sort_Permutation in H.
Qed.

Lemma messages_last_None qs : messages_last qs = None ↔ qs = [].
Proof.
  unfold messages_last. rewrite head_None. split.
  - intros H. apply Permutation_nil_r. by rewrite <- H, merge_sort_Permutation.
  - by intros ->.
Qed.

(** No message of the queryset is more recent than the one [last()] gives. *)
Lemma messages_last_latest qs x y :
  messages_last qs = Some x → y ∈ qs → msg_created_at y.2 ≤ msg_created_at x.2.
Proof.
  unfold messages_last. intros Hhd Hy.
  pose proof (StronglySorted_merge_sort (flip Message_ordering) qs) as Hs.
  rewrite <- (merge_sort_Permutation (flip Message_ordering)) in Hy.
  destruct (merge_sort (flip Message_ordering) qs) as [|z l]; [done|].
  simpl in Hhd. injection Hhd as ->.
  apply StronglySorted_cons in Hs as [Hall _].
  apply elem_of_cons in Hy as [-> | Hy]; [done|].
  rewrite Forall_forall in Hall. by apply Hall in Hy.
Qed.

Lemma elem_of_chat_messages s cid x :
  x ∈ chat_messages s cid ↔ messages s !! x.1 = Some x.2 ∧ msg_chat x.2 = cid.
Proof.
  unfold chat_messages. rewrite list_elem_of_filter, elem_of_objects'. tauto.
Qed.

Lemma elem_of_unread_for s cid user x :
  x ∈ unread_for s cid user
  ↔ messages s !! x.1 = Some x.2 ∧ msg_chat x.2 = cid
    ∧ msg_is_read x.2 = false ∧ msg_sender x.2 ≠ user.
Proof.
  unfold unread_for. rewrite !list_elem_of_filter, elem_of_chat_messages. tauto.
Qed.

(** C5 (as the code has it): [get_last_message] gives a message of the conversation than which
    none is more recent, and none exactly when the conversation has no
    message; [get_unread_count] is the number of messages of the conversation
    with [is_read = False] whose sender is not the viewer; the list view
    leaves the database as it was.  After a valid send of [content] by A that
    does not mark the message as read, at a time later than the conversation's
    earlier messages, any other viewer sees an unread count of at least 1 and
    a last message with that content. *)
Theorem ChatSerializer_summary s viewer cid :
  (∀ x, get_last_message s cid = Some x →
        messages s !! x.1 = Some x.2 ∧ msg_chat x.2 = cid
        ∧ ∀ j m, messages s !! j = Some m → msg_chat m = cid →
                 msg_created_at m ≤ msg_created_at x.2)
  ∧ (get_last_message s cid = None
     ↔ ∀ j m, messages s !! j = Some m → msg_chat m ≠ cid)
  ∧ get_unread_count s (Some viewer) cid
    = length (filter (λ x, msg_chat x.2 = cid ∧ msg_is_read x.2 = false
                           ∧ msg_sender x.2 ≠ viewer)
                     (objects (messages s)))
  ∧ (ChatListView_list s viewer).1 = s
  ∧ (∀ now A content is_read chat,
       content ≠ EmptyString →
       chats s !! cid = Some chat →
       A ∈ chat_participants chat →
       chat_is_active chat = true →
       A ≠ viewer →
       is_read ≠ Some true →
       (∀ j m, messages s !! j = Some m → msg_chat m = cid →
               msg_created_at m < now) →
       let s' := (MessageCreateView_create s now A cid
                    (mkMessageData (Some content) is_read)).1 in
       1 ≤ get_unread_count s' (Some viewer) cid
       ∧ ∃ x, get_last_message s' cid = Some x ∧ msg_content x.2 = content).
Proof.
  split; [|split; [|split; [|split]]].
  - intros x Hx. unfold get_last_message in Hx.
    pose proof (messages_last_elem _ _ Hx) as [? ?]%elem_of_chat_messages.
    do 2 (split; [done|]). intros j m Hj Hm.
    apply (messages_last_latest _ x (j, m) Hx).
    by apply elem_of_chat_messages.
  - unfold get_last_message. rewrite messages_last_None. split.
    + intros Hnil j m Hj Hm.
      assert ((j, m) ∈ chat_messages s cid) as Hin
        by (by apply elem_of_chat_messages).
      rewrite Hnil in Hin. by apply not_elem_of_nil in Hin.
    + intros Hno. apply elem_of_nil_inv. intros [j m].
      rewrite elem_of_chat_messages. simpl. intros [Hj Hm].
      by apply (Hno j m).
  - simpl. unfold unread_for, chat_messages. rewrite !list_filter_filter.
    f_equal. apply list_filter_iff. tauto.
  - done.
  - intros now A content is_read chat Hc Hchat HA Hact Hne Hread Hclock s'.
    subst s'.
    rewrite (MessageCreateView_create_valid s now A cid content is_read chat)
      by done.
    cbn [fst].
    set (mid := new_pk (messages s)).
    set (m := mkMessage cid A content now (default false is_read)).
    set (s' := mkDB _ _ _ _ _).
    pose proof (new_pk_fresh (messages s)) as Hfresh. fold mid in Hfresh.
    assert (default false is_read = false) as Hdef
      by (by destruct is_read as [[]|]).
    assert (messages s' !! mid = Some m) as Hmid
      by (subst s'; simpl; by rewrite lookup_insert_eq).
    split.
    + assert ((mid, m) ∈ unread_for s' cid viewer) as Hin
        by (by apply elem_of_unread_for).
      simpl. destruct (unread_for s' cid viewer); [|simpl; lia].
      by apply not_elem_of_nil in Hin.
    + assert ((mid, m) ∈ chat_messages s' cid) as Hin
        by (by apply elem_of_chat_messages).
      destruct (get_last_message s' cid) as [x|] eqn:E.
      * exists x. split; [done|]. unfold get_last_message in E.
        pose proof (messages_last_latest _ _ _ E Hin) as Hle.
        apply messages_last_elem, elem_of_chat_messages in E as [Hx Hxc].
        destruct x as [j mx]. simpl in *.
        destruct (decide (j = mid)) as [->|Hj].
        { rewrite Hmid in Hx. by injection Hx as <-. }
        subst s'. simpl in Hx. rewrite lookup_insert_ne in Hx by done.
        apply Hclock in Hx; [lia|done].
      * unfold get_last_message in E. apply messages_last_None in E.
        rewrite E in Hin. by apply not_elem_of_nil in Hin.
Qed.

Lemma ChatSerializer_summary_witness :
  let s' := (MessageCreateView_create db2 7 1%positive 1%positive
               (mkMessageData (Some "hi") None)).1 in
  1 ≤ get_unread_count s' (Some 2%positive) 1%positive
  ∧ ∃ x, get_last_message s' 1%positive = Some x ∧ msg_content x.2 = "hi".
Proof.
  destruct (ChatSerializer_summary db2 2 1) as (_ & _ & _ & _ & H).
  apply (H 7 1%positive "hi" None (mkChat {[1%positive; 2%positive]} 3 6 true));
    try done; try (by vm_compute).
  intros j m Hj _.
  assert (map_Forall (λ _ m, msg_created_at m < 7) (messages db2)) as HF.
  { unfold db2. simpl. repeat apply map_Forall_insert_2; simpl; try lia.
    apply map_Forall_empty. }
  by apply (HF j m).
Defined.

(** C5, the counterexamples to the send clause as the claim has it.  User 1
    sends "hi" to conversation 1 of [db1] with [is_read] set in the body: the
    send is answered 201 and user 2 sees no unread message.  User 1 sends
    "hi" to conversation 1 of [db2] at a time that is not later than the
    messages the conversation holds: the send is answered 201 and the last
    message is still "bye". *)
Lemma ChatSerializer_summary_send_unread :
  (let r := MessageCreateView_create db1 7 1%positive 1%positive
              (mkMessageData (Some "hi") (Some true)) in
   status r.2 = HTTP_201_CREATED
   ∧ get_unread_count r.1 (Some 2%positive) 1%positive = 0
   ∧ ¬ 1 ≤ get_unread_count r.1 (Some 2%positive) 1%positive)
  ∧ (let r := MessageCreateView_create db2 5 1%positive 1%positive
                (mkMessageData (Some "hi") None) in
     status r.2 = HTTP_201_CREATED
     ∧ msg_content <$> (snd <$> get_last_message r.1 1%positive) = Some "bye").
Proof.
  split.
  - assert (get_unread_count
              (MessageCreateView_create db1 7 1%positive 1%positive
                 (mkMessageData (Some "hi") (Some true))).1
              (Some 2%positive) 1%positive = 0) as H0 by (by vm_compute).
    cbn zeta. rewrite H0. split; [by vm_compute|]. split; [done|lia].
  - by vm_compute.
Qed.

(** ** [ChatListView] and [ChatDetailView] *)

Lemma mark_read_idemp cid viewer m :
  mark_read cid viewer (mark_read cid viewer m) = mark_read cid viewer m.
Proof.
  unfold mark_read.
  destruct (decide (msg_chat m = cid ∧ msg_is_read m = false
                    ∧ msg_sender m ≠ viewer)) as [H|H].
  - apply decide_False. simpl. intros (_ & ? & _). done.
  - by apply decide_False.
Qed.

Lemma lookup_mark_read s cid viewer j :
  qs_update (unread_for s cid viewer) (λ m, set_is_read m true) (messages s) !! j
  = mark_read cid viewer <$> messages s !! j.
Proof.
  rewrite lookup_qs_update. destruct (messages s !! j) as [m|] eqn:E; [|done].
  simpl. f_equal. unfold mark_read.
  destruct (decide ((j, m) ∈ unread_for s cid viewer)) as [Hin|Hin];
    rewrite elem_of_unread_for in Hin; simpl in Hin.
  - by rewrite decide_True by tauto.
  - by rewrite decide_False by tauto.
Qed.

Lemma ChatDetailView_retrieve_eq s user id :
  ChatDetailView_retrieve s user id
  = match chats s !! id with
    | Some c =>
      if decide (user ∈ chat_participants c ∧ chat_is_active c = true)
      then
        let s' := set_messages s
                    (qs_update (unread_for s id user)
                               (λ m, set_is_read m true) (messages s)) in
        (s', mkResponse HTTP_200_OK (ChatDetailSerializer s' (id, c)))
      else (s, mkResponse HTTP_404_NOT_FOUND ErrorBody)
    | None => (s, mkResponse HTTP_404_NOT_FOUND ErrorBody)
    end.
Proof.
  unfold ChatDetailView_retrieve. rewrite qs_get_user_chats.
  destruct (chats s !! id) as [c|]; [|done]. by destruct (decide _).
Qed.

(** C4: when the viewer opens an active conversation they take part in,
    [retrieve] sets [is_read] on exactly the messages of that conversation
    that were unread and sent by someone else, and changes nothing else;
    after it the viewer's unread count is 0, and a second [retrieve] leaves
    the database as it is and gives the same answer. *)
Theorem ChatDetailView_retrieve_marks_read s viewer cid chat :
  chats s !! cid = Some chat →
  viewer ∈ chat_participants chat →
  chat_is_active chat = true →
  let r := ChatDetailView_retrieve s viewer cid in
  status r.2 = HTTP_200_OK
  ∧ (∀ j, messages r.1 !! j
          = (λ m, if decide (msg_chat m = cid ∧ msg_is_read m = false
                             ∧ msg_sender m ≠ viewer)
                  then mkMessage (msg_chat m) (msg_sender m) (msg_content m)
                                 (msg_created_at m) true
                  else m) <$> messages s !! j)
  ∧ chats r.1 = chats s ∧ users r.1 = users s
  ∧ posts r.1 = posts s ∧ post_likes r.1 = post_likes s
  ∧ get_unread_count r.1 (Some viewer) cid = 0
  ∧ ChatDetailView_retrieve r.1 viewer cid = r.
Proof.
  intros Hchat Hin Hact r. subst r.
  rewrite ChatDetailView_retrieve_eq, Hchat, decide_True by done.
  cbn zeta. cbn [fst snd status].
  set (s' := set_messages s _).
  assert (∀ j, messages s' !! j = mark_read cid viewer <$> messages s !! j)
    as Hlook by (intros j; apply lookup_mark_read).
  assert (unread_for s' cid viewer = []) as Hnone.
  { apply elem_of_nil_inv. intros [j m].
    rewrite elem_of_unread_for. simpl. rewrite Hlook.
    intros (Hj & Hc & Hr & Hs).
    destruct (messages s !! j) as [m0|]; [|done]. simpl in Hj.
    injection Hj as <-. unfold mark_read in *.
    destruct (decide _) as [Hd|Hd]; [done|]. apply Hd. done. }
  split; [done|]. split; [exact Hlook|]. do 4 (split; [done|]).
  split; [simpl; by rewrite Hnone|].
  rewrite ChatDetailView_retrieve_eq.
  assert (chats s' !! cid = Some chat) as -> by done.
  rewrite decide_True by done. cbn zeta.
  assert (set_messages s'
            (qs_update (unread_for s' cid viewer) (λ m, set_is_read m true)
                       (messages s')) = s') as ->; [|done].
  unfold set_messages at 1. subst s'. unfold set_messages at 6. f_equal.
  apply map_eq. intros j. rewrite lookup_mark_read. simpl.
  rewrite !lookup_mark_read.
  destruct (messages s !! j) as [m|]; [|done]. simpl.
  by rewrite mark_read_idemp.
Qed.

Lemma ChatDetailView_retrieve_marks_read_witness :
  let r := ChatDetailView_retrieve db2 2%positive 1%positive in
  get_unread_count r.1 (Some 2%positive) 1%positive = 0
  ∧ ChatDetailView_retrieve r.1 2%positive 1%positive = r.
Proof.
  destruct (ChatDetailView_retrieve_marks_read db2 2 1
              (mkChat {[1%positive; 2%positive]} 3 6 true))
    as (_ & _ & _ & _ & _ & _ & H1 & H2); try done; try (by vm_compute).
Defined.

Lemma elem_of_user_chats s user x :
  x ∈ user_chats s user
  ↔ chats s !! x.1 = Some x.2 ∧ user ∈ chat_participants x.2
    ∧ chat_is_active x.2 = true.
Proof.
  rewrite user_chats_eq, list_elem_of_filter, elem_of_objects'. tauto.
Qed.



(** ** [toggle_like] *)

Lemma elem_of_likes_of s user post_id x :
  x ∈ likes_of s user post_id
  ↔ post_likes s !! x.1 = Some x.2 ∧ like_user x.2 = user
    ∧ like_post x.2 = post_id.
Proof.
  unfold likes_of. rewrite list_elem_of_filter, elem_of_objects'. tauto.
Qed.

Lemma likes_unique_length s user post_id :
  likes_unique s → length (likes_of s user post_id) ≤ 1.
Proof.
  intros Huniq.
  assert (NoDup (likes_of s user post_id)) as Hnd
    by apply NoDup_filter, NoDup_map_to_list.
  destruct (likes_of s user post_id) as [|x [|y l]] eqn:E; simpl; [lia..|].
  exfalso.
  assert (x ∈ likes_of s user post_id) as Hx by (rewrite E; set_solver).
  assert (y ∈ likes_of s user post_id) as Hy by (rewrite E; set_solver).
  apply elem_of_likes_of in Hx as (Hx & Hxu & Hxp).
  apply elem_of_likes_of in Hy as (Hy & Hyu & Hyp).
  assert (x.1 = y.1) as Hk by (eapply Huniq; [done..|congruence|congruence]).
  assert (x = y) as ->.
  { destruct x, y. simpl in *. subst. f_equal. congruence. }
  apply NoDup_cons in Hnd as [Hnin _]. apply Hnin. set_solver.
Qed.

Lemma toggle_like_eq s now user post_id :
  toggle_like s now user post_id
  = match posts s !! post_id with
    | Some post =>
      if decide (post_is_active post = true) then
        match likes_of s user post_id with
        | [] =>
          let s1 := set_post_likes s
                      (objects_create (post_likes s)
                                      (mkPostLike user post_id now)) in
          let post' := set_likes_count post (post_likes_count post + 1)%Z in
          (Post_save s1 now post_id post',
           mkResponse HTTP_200_OK (LikeBody true (post_likes_count post')))
        | [(lid, _)] =>
          let s1 := set_post_likes s (delete lid (post_likes s)) in
          let post' :=
            set_likes_count post (Z.max 0 (post_likes_count post - 1)) in
          (Post_save s1 now post_id post',
           mkResponse HTTP_200_OK (LikeBody false (post_likes_count post')))
        | _ => (s, mkResponse HTTP_500_INTERNAL_SERVER_ERROR ErrorBody)
        end
      else (s, mkResponse HTTP_404_NOT_FOUND ErrorBody)
    | None => (s, mkResponse HTTP_404_NOT_FOUND ErrorBody)
    end.
Proof.
  unfold toggle_like.
  rewrite (qs_get_filter_objects (posts s) (λ x, post_is_active x.2 = true)).
  destruct (posts s !! post_id) as [post|]; [|done]. simpl.
  by destruct (decide _).
Qed.

Lemma likes_count_nonneg_save s t now post_id p :
  likes_count_nonneg s → (0 ≤ post_likes_count p)%Z →
  likes_count_nonneg (Post_save (set_post_likes s t) now post_id p).
Proof.
  intros Hs Hp i q. unfold Post_save. simpl.
  destruct (decide (post_id = i)) as [->|Hne].
  - rewrite lookup_insert_eq. by intros [= <-].
  - rewrite lookup_insert_ne by done. apply Hs.
Qed.

(** One call keeps both invariants. *)
Lemma toggle_like_preserves s now user post_id :
  likes_count_nonneg s → likes_unique s →
  likes_count_nonneg (toggle_like s now user post_id).1
  ∧ likes_unique (toggle_like s now user post_id).1.
Proof.
  intros Hcount Huniq. rewrite toggle_like_eq.
  destruct (posts s !! post_id) as [post|] eqn:Hpost; [|done].
  destruct (decide _) as [Hact|]; [|done].
  pose proof (Hcount _ _ Hpost) as Hp.
  destruct (likes_of s user post_id) as [|[lid l] [|y rest]] eqn:E; [| |done].
  - split.
    + apply likes_count_nonneg_save; [done|]. simpl. lia.
    + intros i j l l'. unfold Post_save, objects_create. simpl.
      pose proof (new_pk_fresh (post_likes s)) as Hfresh.
      assert (∀ k lk, post_likes s !! k = Some lk →
                ¬ (like_user lk = user ∧ like_post lk = post_id)) as Hno.
      { intros k lk Hk [Hu Hpo].
        assert ((k, lk) ∈ likes_of s user post_id) as Hin
          by (by apply elem_of_likes_of).
        rewrite E in Hin. by apply not_elem_of_nil in Hin. }
      rewrite !lookup_insert.
      destruct (decide (new_pk (post_likes s) = i)) as [<-|Hi];
        destruct (decide (new_pk (post_likes s) = j)) as [<-|Hj]; try done.
      * intros [= <-] Hj' Hu Hpo. simpl in *. destruct (Hno _ _ Hj'). done.
      * intros Hi' [= <-] Hu Hpo. simpl in *. destruct (Hno _ _ Hi'). done.
      * apply Huniq.
  - split.
    + apply likes_count_nonneg_save; [done|]. simpl. lia.
    + intros i j l1 l2. unfold Post_save. simpl.
      rewrite !lookup_delete_Some. intros [_ Hi] [_ Hj]. by apply Huniq.
Qed.

(** C10: starting from a database where no [likes_count] is negative and no
    user has two likes on one post, after any sequence of [toggle_like] calls
    no [likes_count] is negative and each (user, post) pair still has at most
    one like.  A call that removes a like sets the counter to the larger of 0
    and the counter less one. *)
Theorem toggle_like_invariant s calls :
  likes_count_nonneg s → likes_unique s →
  let s' := toggle_likes s calls in
  (∀ i p, posts s' !! i = Some p → (0 ≤ post_likes_count p)%Z)
  ∧ (∀ user post_id, length (likes_of s' user post_id) ≤ 1)
  ∧ (∀ now user post_id post lid l,
       posts s' !! post_id = Some post →
       post_is_active post = true →
       likes_of s' user post_id = [(lid, l)] →
       let r := toggle_like s' now user post_id in
       r.2 = mkResponse HTTP_200_OK
               (LikeBody false (Z.max 0 (post_likes_count post - 1)))
       ∧ post_likes_count <$> posts r.1 !! post_id
         = Some (Z.max 0 (post_likes_count post - 1))
       ∧ likes_of r.1 user post_id = []).
Proof.
  intros Hcount Huniq s'.
  assert (likes_count_nonneg s' ∧ likes_unique s') as [Hc' Hu'].
  { subst s'. revert s Hcount Huniq.
    induction calls as [|c calls IH]; intros s Hcount Huniq; [done|].
    simpl. apply IH; by apply toggle_like_preserves. }
  split; [exact Hc'|]. split; [intros; by apply likes_unique_length|].
  intros now user post_id post lid l Hpost Hact Hlikes r. subst r.
  rewrite toggle_like_eq, Hpost, decide_True, Hlikes by done.
  cbn zeta. cbn [fst snd]. split; [done|].
  split; [unfold Post_save; simpl; by rewrite lookup_insert_eq|].
  apply elem_of_nil_inv. intros [k lk].
  rewrite elem_of_likes_of. unfold Post_save. simpl.
  rewrite lookup_delete_Some. intros ([Hne Hk] & Hu & Hpo).
  assert ((k, lk) ∈ likes_of s' user post_id) as Hin
    by (by apply elem_of_likes_of).
  rewrite Hlikes in Hin. apply list_elem_of_singleton in Hin.
  congruence.
Qed.

Lemma toggle_like_invariant_witness :
  let s' := toggle_likes db_posts
              [(2, 1%positive, 1%positive); (3, 2%positive, 1%positive);
               (4, 1%positive, 1%positive)] in
  (∀ i p, posts s' !! i = Some p → (0 ≤ post_likes_count p)%Z)
  ∧ (∀ user post_id, length (likes_of s' user post_id) ≤ 1).
Proof.
  destruct (toggle_like_invariant db_posts
              [(2, 1%positive, 1%positive); (3, 2%positive, 1%positive);
               (4, 1%positive, 1%positive)]) as (H1 & H2 & _).
  - intros i p. unfold db_posts. simpl.
    intros [_ <-]%lookup_singleton_Some. done.
  - intros i j l l'. unfold db_posts. simpl. by rewrite lookup_empty.
  - exact (conj H1 H2).
Defined.

Example toggle_like_sequence :
  post_likes_count <$>
    posts (toggle_likes db_posts
             [(2, 1%positive, 1%positive); (3, 2%positive, 1%positive);
              (4, 1%positive, 1%positive)]) !! 1%positive
  = Some 1%Z.
Proof. by vm_compute. Qed.

(** ** The views on concrete databases *)

(** Unliking a post whose counter is already 0 leaves it at 0. *)
Example toggle_like_clamps :
  let s := mkDB {[1%positive]}
             {[1%positive := mkPost 1%positive "post" 1 1 0%Z true]}
             {[1%positive := mkPostLike 1%positive 1%positive 1]} ∅ ∅ in
  (toggle_like s 2 1%positive 1%positive).2
  = mkResponse HTTP_200_OK (LikeBody false 0%Z).
Proof. by vm_compute. Qed.

(** A like on an inactive post is answered 404. *)
Example toggle_like_inactive :
  let s := mkDB {[1%positive]}
             {[1%positive := mkPost 1%positive "post" 1 1 0%Z false]} ∅ ∅ ∅ in
  toggle_like s 2 1%positive 1%positive
  = (s, mkResponse HTTP_404_NOT_FOUND ErrorBody).
Proof. by vm_compute. Qed.

(** User 1 asks for the conversation with user 2 that [db1] holds: the
    lookup raises, the call is answered 500 and returns no conversation. *)
Example create_or_get_chat_db1 :
  create_or_get_chat db1 9 1%positive (Some 2%N)
  = (db1, mkResponse HTTP_500_INTERNAL_SERVER_ERROR ErrorBody)
  ∧ response_chat_id (create_or_get_chat db1 9 1%positive (Some 2%N)).2 = None.
Proof. by vm_compute. Qed.

(** An unknown [user_id] is answered 404, a missing one 400. *)
Example create_or_get_chat_unknown_user :
  create_or_get_chat db1 9 1%positive (Some 7%N)
  = (db1, mkResponse HTTP_404_NOT_FOUND ErrorBody)
  ∧ create_or_get_chat db1 9 1%positive None
    = (db1, mkResponse HTTP_400_BAD_REQUEST ErrorBody).
Proof. by vm_compute. Qed.

(** User 2 lists the conversations of [db2]: one conversation, last message
    "bye", two unread messages. *)
Example ChatListView_list_db2 :
  data (ChatListView_list db2 2%positive).2
  = ChatListBody
      [mkChatData 1%positive (mkChat {[1%positive; 2%positive]} 3 6 true)
         (Some (3%positive, mkMessage 1%positive 1%positive "bye" 6 false)) 2].
Proof. by vm_compute. Qed.

(** User 2 opens conversation 1 of [db2]: the two messages of user 1 become
    read, the message of user 2 stays unread. *)
Example ChatDetailView_retrieve_db2 :
  msg_is_read <$> messages (ChatDetailView_retrieve db2 2%positive 1%positive).1
  = <[1%positive := true]> (<[2%positive := false]> {[3%positive := true]}).
Proof. by vm_compute. Qed.

(** With an empty body and an unknown conversation the answer is 400: the
    body is validated before the conversation is looked up. *)
Example MessageCreateView_validates_first :
  MessageCreateView_create db1 7 1%positive 9%positive
    (mkMessageData None None)
  = (db1, mkResponse HTTP_400_BAD_REQUEST ErrorBody).
Proof. by vm_compute. Qed.

(** ** Counting the rows of a filtered table *)

Lemma length_filter_objects_insert {A} (P : pk * A → Prop)
    `{!∀ x, Decision (P x)} (tbl : gmap pk A) k v :
  tbl !! k = None →
  length (filter P (objects (<[k := v]> tbl)))
  = (if decide (P (k, v)) then 1 else 0) + length (filter P (objects tbl)).
Proof.
  intros Hk. unfold objects. rewrite (map_to_list_insert tbl k v Hk).
  rewrite filter_cons. by destruct (decide (P (k, v))).
Qed.

Lemma length_filter_objects_delete {A} (P : pk * A → Prop)
    `{!∀ x, Decision (P x)} (tbl : gmap pk A) k v :
  tbl !! k = Some v →
  length (filter P (objects tbl))
  = (if decide (P (k, v)) then 1 else 0)
    + length (filter P (objects (delete k tbl))).
Proof.
  intros Hk. unfold objects. rewrite <- (map_to_list_delete tbl k v Hk).
  rewrite filter_cons. by destruct (decide (P (k, v))).
Qed.

Lemma list_singleton_char {A} (l : list A) a :
  NoDup l → a ∈ l → (∀ x, x ∈ l → x = a) → l = [a].
Proof.
  intros Hnd Ha Hall. destruct l as [|x [|y l]].
  - by apply not_elem_of_nil in Ha.
  - f_equal. apply Hall. by left.
  - exfalso. apply NoDup_cons in Hnd as [Hx _]. apply Hx.
    rewrite (Hall x) by (by left). rewrite <- (Hall y) at 1; [by left|].
    right. by left.
Qed.

Lemma nonempty_iff {A} (l1 l2 : list A) :
  (∀ x, x ∈ l1 ↔ x ∈ l2) → (l1 ≠ [] ↔ l2 ≠ []).
Proof.
  intros H. destruct l1 as [|x l1], l2 as [|y l2]; try done.
  - exfalso. apply (not_elem_of_nil y), H. by left.
  - exfalso. apply (not_elem_of_nil x), H. by left.
Qed.

(** ** More about [toggle_like] *)

Lemma likes_of_after_create s user post_id now :
  likes_of s user post_id = [] →
  likes_of (set_post_likes s (objects_create (post_likes s)
                                (mkPostLike user post_id now))) user post_id
  = [(new_pk (post_likes s), mkPostLike user post_id now)].
Proof.
  intros Hnone. pose proof (new_pk_fresh (post_likes s)) as Hfresh.
  apply list_singleton_char.
  - apply NoDup_filter, NoDup_map_to_list.
  - apply elem_of_likes_of. simpl. unfold objects_create.
    by rewrite lookup_insert_eq.
  - intros [k l]. rewrite elem_of_likes_of. simpl. unfold objects_create.
    intros (Hk & Hu & Hp).
    destruct (decide (k = new_pk (post_likes s))) as [->|Hne].
    + rewrite lookup_insert_eq in Hk. by injection Hk as <-.
    + rewrite lookup_insert_ne in Hk by done.
      assert ((k, l) ∈ likes_of s user post_id) as Hin
        by (by apply elem_of_likes_of).
      rewrite Hnone in Hin. by apply not_elem_of_nil in Hin.
Qed.

(** X1: a user who does not like an active post and toggles twice is back
    where they started: the first answer is liked with the counter one higher,
    the second is not liked with the original counter, and afterwards the
    database differs from the original one only in the post's [updated_at]. *)
Theorem toggle_like_twice s now now' user post_id post :
  posts s !! post_id = Some post →
  post_is_active post = true →
  likes_of s user post_id = [] →
  (0 ≤ post_likes_count post)%Z →
  let r1 := toggle_like s now user post_id in
  let r2 := toggle_like r1.1 now' user post_id in
  r1.2 = mkResponse HTTP_200_OK (LikeBody true (post_likes_count post + 1))
  ∧ r2.2 = mkResponse HTTP_200_OK (LikeBody false (post_likes_count post))
  ∧ r2.1 = Post_save s now' post_id post.
Proof.
  intros Hpost Hact Hnone Hpos r1 r2. subst r2 r1.
  rewrite (toggle_like_eq s), Hpost, decide_True, Hnone by done.
  cbn zeta. cbn [fst snd]. split; [done|].
  rewrite toggle_like_eq.
  set (s1 := set_post_likes s _).
  set (post1 := set_likes_count post _).
  assert (posts (Post_save s1 now post_id post1) !! post_id
          = Some (mkPost (post_author post) (post_content post)
                         (post_created_at post) now
                         (post_likes_count post + 1) (post_is_active post)))
    as -> by (unfold Post_save; simpl; by rewrite lookup_insert_eq).
  rewrite decide_True by done.
  assert (likes_of (Post_save s1 now post_id post1) user post_id
          = [(new_pk (post_likes s), mkPostLike user post_id now)]) as ->
    by (by apply likes_of_after_create).
  cbn zeta. cbn [fst snd]. unfold set_likes_count. simpl.
  assert (Z.max 0 (post_likes_count post + 1 - 1) = post_likes_count post)
    as -> by lia.
  split; [done|].
  unfold Post_save, set_posts, set_post_likes, objects_create. simpl.
  rewrite insert_insert_eq.
  by rewrite delete_insert_id by apply new_pk_fresh.
Qed.

Lemma toggle_like_twice_witness :
  let r1 := toggle_like db_posts 2 1%positive 1%positive in
  let r2 := toggle_like r1.1 3 1%positive 1%positive in
  r2.2 = mkResponse HTTP_200_OK (LikeBody false 0%Z).
Proof.
  destruct (toggle_like_twice db_posts 2 3 1 1
              (mkPost 1%positive "post" 1 1 0%Z true))
    as (_ & H & _); try done; by vm_compute.
Defined.

(** X2: whenever [toggle_like] answers 200, the [liked] flag of the answer is
    what [get_is_liked] reports for that user and post afterwards, and the
    [likes_count] of the answer is the counter stored on the post. *)
Theorem toggle_like_answer s now user post_id liked n :
  (toggle_like s now user post_id).2
  = mkResponse HTTP_200_OK (LikeBody liked n) →
  let s' := (toggle_like s now user post_id).1 in
  get_is_liked s' (Some user) post_id = liked
  ∧ post_likes_count <$> posts s' !! post_id = Some n.
Proof.
  rewrite toggle_like_eq.
  destruct (posts s !! post_id) as [post|] eqn:Hpost; [|done].
  destruct (decide _) as [Hact|]; [|done].
  destruct (likes_of s user post_id) as [|[lid l] [|y rest]] eqn:E; [| |done].
  - cbn zeta. cbn [fst snd]. intros [= <- <-]. split.
    + simpl. rewrite bool_decide_eq_true.
      unfold Post_save. 
      replace (likes_of _ user post_id)
        with [(new_pk (post_likes s), mkPostLike user post_id now)]
        by (symmetry; by apply likes_of_after_create).
      done.
    + unfold Post_save. simpl. by rewrite lookup_insert_eq.
  - cbn zeta. cbn [fst snd]. intros [= <- <-]. split.
    + simpl. rewrite bool_decide_eq_false. intros Hne. apply Hne.
      apply elem_of_nil_inv. intros [k lk].
      rewrite elem_of_likes_of. unfold Post_save. simpl.
      rewrite lookup_delete_Some. intros ([Hk Hlk] & Hu & Hp).
      assert ((k, lk) ∈ likes_of s user post_id) as Hin
        by (by apply elem_of_likes_of).
      rewrite E in Hin. apply list_elem_of_singleton in Hin. congruence.
    + unfold Post_save. simpl. by rewrite lookup_insert_eq.
Qed.

Lemma toggle_like_answer_witness :
  get_is_liked (toggle_like db_posts 2 1%positive 1%positive).1
               (Some 1%positive) 1%positive = true.
Proof.
  apply (toggle_like_answer db_posts 2 1 1 true 1%Z). by vm_compute.
Defined.

(** X3: [toggle_like] by one user on one post touches nothing else: whether
    any other (user, post) pair is liked stays as it was, every other post
    keeps its row, and users, conversations and messages are unchanged. *)
Theorem toggle_like_frame s now user post_id :
  let s' := (toggle_like s now user post_id).1 in
  (∀ u p, (u, p) ≠ (user, post_id) →
          get_is_liked s' (Some u) p = get_is_liked s (Some u) p)
  ∧ (∀ j, j ≠ post_id → posts s' !! j = posts s !! j)
  ∧ users s' = users s ∧ chats s' = chats s ∧ messages s' = messages s.
Proof.
  rewrite toggle_like_eq.
  destruct (posts s !! post_id) as [post|] eqn:Hpost; [|done].
  destruct (decide _) as [Hact|]; [|done].
  destruct (likes_of s user post_id) as [|[lid l] [|y rest]] eqn:E; [| |done].
  - cbn zeta. cbn [fst]. split; [|split; [|done]].
    + intros u p Hne. simpl. apply bool_decide_ext, nonempty_iff.
      intros [k lk]. rewrite !elem_of_likes_of.
      unfold Post_save, objects_create. simpl.
      pose proof (new_pk_fresh (post_likes s)) as Hfresh.
      destruct (decide (k = new_pk (post_likes s))) as [->|Hk].
      * rewrite lookup_insert_eq, Hfresh. split; [|by intros [? _]].
        intros ([= <-] & Hu & Hp). simpl in *. congruence.
      * by rewrite lookup_insert_ne.
    + intros j Hj. unfold Post_save. simpl. by rewrite lookup_insert_ne.
  - cbn zeta. cbn [fst]. split; [|split; [|done]].
    + intros u p Hne. simpl. apply bool_decide_ext, nonempty_iff.
      intros [k lk]. rewrite !elem_of_likes_of.
      unfold Post_save. simpl. rewrite lookup_delete_Some.
      assert ((lid, l) ∈ likes_of s user post_id) as Hin
        by (rewrite E; by left).
      apply elem_of_likes_of in Hin as (Hl & Hlu & Hlp). simpl in *.
      split; [tauto|]. intros (Hk & Hu & Hp). split; [|done].
      split; [|done]. intros <-. congruence.
    + intros j Hj. unfold Post_save. simpl. by rewrite lookup_insert_ne.
Qed.

(** X4: [toggle_like] answers 404 exactly when no active post has the given
    key, and every answer other than 200 leaves the database as it was. *)
Theorem toggle_like_errors s now user post_id :
  (status (toggle_like s now user post_id).2 = HTTP_404_NOT_FOUND
   ↔ ¬ ∃ post, posts s !! post_id = Some post ∧ post_is_active post = true)
  ∧ (status (toggle_like s now user post_id).2 ≠ HTTP_200_OK →
     (toggle_like s now user post_id).1 = s).
Proof.
  rewrite toggle_like_eq.
  destruct (posts s !! post_id) as [post|] eqn:Hpost.
  - destruct (decide _) as [Hact|Hact].
    + destruct (likes_of s user post_id) as [|[lid l] [|y rest]]; simpl;
        (split; [split; [done|intros []; by exists post]|done]).
    + simpl. split; [|done]. split; [|done].
      intros _ (p & [= <-] & ?). done.
  - simpl. split; [|done]. split; [|done]. by intros _ (p & ? & _).
Qed.

Lemma toggle_like_errors_witness :
  (toggle_like db_posts 2 1%positive 5%positive).1 = db_posts.
Proof.
  apply (toggle_like_errors db_posts 2 1 5). by vm_compute.
Defined.

(** One call keeps every counter equal to the number of likes of its post. *)
Lemma toggle_like_consistent s now user post_id :
  likes_count_consistent s →
  likes_count_consistent (toggle_like s now user post_id).1.
Proof.
  intros Hcons. rewrite toggle_like_eq.
  destruct (posts s !! post_id) as [post|] eqn:Hpost; [|done].
  destruct (decide _) as [Hact|]; [|done].
  pose proof (Hcons _ _ Hpost) as Hp.
  destruct (likes_of s user post_id) as [|[lid l] [|y rest]] eqn:E; [| |done].
  - cbn zeta. cbn [fst]. intros i p. unfold Post_save, Post_likes. simpl.
    unfold objects_create.
    rewrite (length_filter_objects_insert _ _ _ _ (new_pk_fresh (post_likes s))).
    simpl. destruct (decide (post_id = i)) as [->|Hne].
    + rewrite lookup_insert_eq. intros [= <-]. simpl.
      unfold Post_likes in Hp. lia.
    + rewrite lookup_insert_ne by done. intros Hi. by apply Hcons.
  - assert ((lid, l) ∈ likes_of s user post_id) as Hin by (rewrite E; by left).
    apply elem_of_likes_of in Hin as (Hl & Hlu & Hlp). simpl in *.
    cbn zeta. cbn [fst]. intros i p. unfold Post_save, Post_likes. simpl.
    pose proof (length_filter_objects_delete
                  (λ x : pk * PostLike, like_post x.2 = i) _ _ _ Hl) as Hlen.
    simpl in Hlen. destruct (decide (post_id = i)) as [->|Hne].
    + rewrite lookup_insert_eq. intros [= <-]. simpl.
      rewrite decide_True in Hlen by done. unfold Post_likes in Hp. lia.
    + rewrite lookup_insert_ne by done. intros Hi.
      rewrite decide_False in Hlen by congruence.
      pose proof (Hcons _ _ Hi) as Hc. unfold Post_likes in Hc. lia.
Qed.

(** X5: if every post's [likes_count] equals the number of its [PostLike]
    rows, then so it does after any sequence of [toggle_like] calls. *)
Theorem toggle_likes_consistent s calls :
  likes_count_consistent s →
  ∀ i p, posts (toggle_likes s calls) !! i = Some p →
         post_likes_count p
         = Z.of_nat (length (Post_likes (toggle_likes s calls) i)).
Proof.
  revert s. induction calls as [|c calls IH]; intros s Hcons; [exact Hcons|].
  simpl. apply IH. by apply toggle_like_consistent.
Qed.

Lemma toggle_likes_consistent_witness :
  Z.of_nat
    (length (Post_likes
               (toggle_likes db_posts
                  [(2, 1%positive, 1%positive); (3, 2%positive, 1%positive);
                   (4, 1%positive, 1%positive)]) 1%positive))
  = 1%Z.
Proof.
  assert (likes_count_consistent db_posts) as Hcons.
  { intros i p. unfold db_posts. simpl.
    intros [<- <-]%lookup_singleton_Some. by vm_compute. }
  symmetry.
  apply (toggle_likes_consistent db_posts
           [(2, 1%positive, 1%positive); (3, 2%positive, 1%positive);
            (4, 1%positive, 1%positive)] Hcons 1%positive
           (mkPost 1%positive "post" 1 4 1%Z true)).
  by vm_compute.
Defined.

(** ** More about [MessageCreateView] and the chat list *)

Lemma get_unread_count_eq s viewer cid :
  get_unread_count s (Some viewer) cid
  = length (filter (λ x, msg_sender x.2 ≠ viewer
                         ∧ msg_is_read x.2 = false ∧ msg_chat x.2 = cid)
                   (objects (messages s))).
Proof.
  simpl. unfold unread_for, chat_messages. rewrite !list_filter_filter.
  f_equal. apply list_filter_iff. tauto.
Qed.

(** X6: a valid send changes unread counts by exactly this much: in the
    conversation written to, every viewer other than the sender sees one
    unread message more, unless the body marks the message as read; the
    sender's own count and the counts of all other conversations stay as they
    were. *)
Theorem MessageCreateView_unread_count s now user chat_id content is_read chat
    viewer cid :
  content ≠ EmptyString →
  chats s !! chat_id = Some chat →
  user ∈ chat_participants chat →
  chat_is_active chat = true →
  let s' := (MessageCreateView_create s now user chat_id
               (mkMessageData (Some content) is_read)).1 in
  get_unread_count s' (Some viewer) cid
  = (if decide (cid = chat_id ∧ viewer ≠ user ∧ is_read ≠ Some true)
     then 1 else 0)
    + get_unread_count s (Some viewer) cid.
Proof.
  intros Hc Hchat Hin Hact s'. subst s'.
  rewrite (MessageCreateView_create_valid s now user chat_id content is_read chat)
    by done.
  cbn [fst]. rewrite !get_unread_count_eq. cbn [messages].
  rewrite (length_filter_objects_insert _ _ _ _ (new_pk_fresh (messages s))).
  f_equal. simpl.
  assert (default false is_read = false ↔ is_read ≠ Some true) as Hdef
    by (destruct is_read as [[]|]; simpl; split; intros; congruence).
  destruct (decide (user ≠ viewer ∧ _ ∧ _)) as [H1|H1];
    destruct (decide (cid = chat_id ∧ _ ∧ _)) as [H2|H2]; try done.
  - exfalso. apply H2. destruct H1 as (? & ?%Hdef & ?). done.
  - exfalso. apply H1. destruct H2 as (? & ? & ?%Hdef). done.
Qed.

Lemma MessageCreateView_unread_count_witness :
  get_unread_count
    (MessageCreateView_create db2 7 1%positive 1%positive
       (mkMessageData (Some "more") None)).1 (Some 2%positive) 1%positive
  = 1 + get_unread_count db2 (Some 2%positive) 1%positive.
Proof.
  apply (MessageCreateView_unread_count db2 7 1 1 "more" None
           (mkChat {[1%positive; 2%positive]} 3 6 true) 2 1);
    try done; by vm_compute.
Defined.

Global Instance Chat_ordering_total : Total Chat_ordering.
Proof. intros x y. unfold Chat_ordering. lia. Qed.
Global Instance Chat_ordering_trans : Transitive Chat_ordering.
Proof. intros x y z. unfold Chat_ordering. lia. Qed.

(** X7: after a valid send at a time later than the [updated_at] of every
    other conversation, the conversation written to comes first in the chat
    list of each of its participants, with [updated_at] the time of the
    send. *)
Theorem MessageCreateView_list_first s now user chat_id content is_read chat
    viewer :
  content ≠ EmptyString →
  chats s !! chat_id = Some chat →
  user ∈ chat_participants chat →
  chat_is_active chat = true →
  viewer ∈ chat_participants chat →
  (∀ j c, chats s !! j = Some c → j ≠ chat_id → chat_updated_at c < now) →
  let s' := (MessageCreateView_create s now user chat_id
               (mkMessageData (Some content) is_read)).1 in
  ∃ d rest,
    data (ChatListView_list s' viewer).2 = ChatListBody (d :: rest)
    ∧ cd_id d = chat_id
    ∧ cd_chat d = mkChat (chat_participants chat) (chat_created_at chat) now
                         true.
Proof.
  intros Hc Hchat Hin Hact Hv Hclock s'. subst s'.
  rewrite (MessageCreateView_create_valid s now user chat_id content is_read chat)
    by done.
  cbn [fst]. set (s' := mkDB _ _ _ _ _).
  set (chat' := mkChat (chat_participants chat) (chat_created_at chat) now true).
  assert (chats s' !! chat_id = Some chat') as Hchat'.
  { subst s' chat'. simpl. by rewrite lookup_insert_eq, Hact. }
  assert ((chat_id, chat') ∈ user_chats s' viewer) as Hx
    by (by apply elem_of_user_chats).
  unfold ChatListView_list. cbn [snd data].
  pose proof (StronglySorted_merge_sort Chat_ordering (user_chats s' viewer))
    as Hs.
  rewrite <- (merge_sort_Permutation Chat_ordering) in Hx.
  assert (∀ y, y ∈ merge_sort Chat_ordering (user_chats s' viewer) →
               y ∈ user_chats s' viewer) as Hback
    by (intros y; by rewrite merge_sort_Permutation).
  destruct (merge_sort Chat_ordering (user_chats s' viewer)) as [|h l];
    [by apply not_elem_of_nil in Hx|].
  exists (ChatSerializer s' (Some viewer) h),
         (ChatSerializer s' (Some viewer) <$> l).
  split; [done|].
  assert (h = (chat_id, chat')) as ->; [|done].
  apply StronglySorted_cons in Hs as [Hall _].
  apply elem_of_cons in Hx as [<-|Hx]; [done|].
  rewrite Forall_forall in Hall. apply Hall in Hx.
  unfold Chat_ordering in Hx. simpl in Hx.
  assert (h ∈ user_chats s' viewer) as Hh by (apply Hback; by left).
  apply elem_of_user_chats in Hh as (Hh & _). destruct h as [j c]. simpl in *.
  destruct (decide (j = chat_id)) as [->|Hj]; [congruence|].
  subst s'. simpl in Hh. rewrite lookup_insert_ne in Hh by done.
  apply Hclock in Hh; [lia|done].
Qed.

Lemma MessageCreateView_list_first_witness :
  ∃ d rest,
    data (ChatListView_list
            (MessageCreateView_create db3 10 1%positive 1%positive
               (mkMessageData (Some "more") None)).1 2%positive).2
    = ChatListBody (d :: rest)
    ∧ cd_id d = 1%positive.
Proof.
  destruct (MessageCreateView_list_first db3 10 1 1 "more" None
              (mkChat {[1%positive; 2%positive]} 3 3 true) 2)
    as (d & rest & H1 & H2 & _); try done; try (by vm_compute).
  - intros j c. unfold db3. simpl. intros Hj Hne.
    rewrite lookup_insert_ne in Hj by done.
    apply lookup_singleton_Some in Hj as [_ <-]. simpl. lia.
  - by exists d, rest.
Defined.

(** Before that send, the conversation of users 2 and 3 is the first of
    user 2's list; after it, the conversation of users 1 and 2 is. *)
Example MessageCreateView_list_first_db3 :
  cd_id <$> match data (ChatListView_list db3 2%positive).2 with
            | ChatListBody l => l
            | _ => []
            end
  = [2%positive; 1%positive]
  ∧ cd_id <$> match data (ChatListView_list
                            (MessageCreateView_create db3 10 1%positive
                               1%positive
                               (mkMessageData (Some "more") None)).1
                            2%positive).2 with
              | ChatListBody l => l
              | _ => []
              end
    = [1%positive; 2%positive].
Proof. by vm_compute. Qed.

(** ** Admin views and actions on posts *)

Lemma qs_get_objects {A} (tbl : gmap pk A) i :
  qs_get (objects tbl) i = (λ row, (i, row)) <$> tbl !! i.
Proof.
  destruct (tbl !! i) as [row|] eqn:E; simpl.
  - apply (qs_get_elem tbl); [apply qs_over_objects|]. by apply elem_of_objects.
  - apply qs_get_None. intros row Hin. apply elem_of_objects in Hin. congruence.
Qed.

(** X8: [admin_delete_post] answers 403 to anyone who is not staff and 404
    when no post has the key, leaving the database as it was.  For staff and
    an existing post, active or not, the post is flagged inactive with its
    content, author, counter and likes kept; nothing else changes, and a
    [toggle_like] on the post is then answered 404 and changes nothing. *)
Theorem admin_delete_post_soft s now now' is_staff post_id user :
  (is_staff = false →
   admin_delete_post s now is_staff post_id
   = (s, mkAdminResponse HTTP_403_FORBIDDEN (ErrorMessage "Admin access required")))
  ∧ (is_staff = true → posts s !! post_id = None →
     admin_delete_post s now is_staff post_id
     = (s, mkAdminResponse HTTP_404_NOT_FOUND NotFoundDetail))
  ∧ (∀ post, is_staff = true → posts s !! post_id = Some post →
     let r := admin_delete_post s now is_staff post_id in
     admin_status r.2 = HTTP_200_OK
     ∧ posts r.1
       = <[post_id := mkPost (post_author post) (post_content post)
                        (post_created_at post) now (post_likes_count post)
                        false]> (posts s)
     ∧ post_likes r.1 = post_likes s ∧ users r.1 = users s
     ∧ chats r.1 = chats s ∧ messages r.1 = messages s
     ∧ toggle_like r.1 now' user post_id
       = (r.1, mkResponse HTTP_404_NOT_FOUND ErrorBody)).
Proof.
  unfold admin_delete_post. split; [by intros ->|]. split.
  - intros -> Hnone. simpl. by rewrite qs_get_objects, Hnone.
  - intros post -> Hpost. simpl. rewrite qs_get_objects, Hpost. simpl.
    do 5 (split; [done|]).
    rewrite toggle_like_eq. unfold Post_save. simpl.
    by rewrite lookup_insert_eq.
Qed.

Lemma admin_delete_post_soft_witness :
  let r := admin_delete_post db_posts 5 true 1%positive in
  toggle_like r.1 6 2%positive 1%positive
  = (r.1, mkResponse HTTP_404_NOT_FOUND ErrorBody).
Proof.
  destruct (admin_delete_post_soft db_posts 5 6 true 1 2) as (_ & _ & H).
  destruct (H (mkPost 1%positive "post" 1 1 0%Z true))
    as (_ & _ & _ & _ & _ & _ & H'); try done.
Defined.

Lemma elem_of_selected_rows {A} (tbl : gmap pk A) selected x :
  x ∈ selected_rows tbl selected ↔ x.1 ∈ selected ∧ tbl !! x.1 = Some x.2.
Proof.
  unfold selected_rows. by rewrite list_elem_of_filter, elem_of_objects'.
Qed.

Lemma lookup_update_selected {A} `{!EqDecision A} (tbl : gmap pk A) selected
    (f : A → A) i :
  qs_update (selected_rows tbl selected) f tbl !! i
  = (if decide (i ∈ selected) then f else id) <$> tbl !! i.
Proof.
  rewrite lookup_qs_update. destruct (tbl !! i) as [row|] eqn:E; [|done].
  simpl. f_equal.
  destruct (decide ((i, row) ∈ selected_rows tbl selected)) as [Hin|Hin];
    rewrite elem_of_selected_rows in Hin; simpl in Hin.
  - by rewrite decide_True by tauto.
  - by rewrite decide_False by tauto.
Qed.

(** X9: [deactivate_posts] flags exactly the selected posts inactive and
    keeps every other column and every other post; a [toggle_like] on a
    selected post is then answered 404.  When the selected posts were all
    active, [activate_posts] on the same selection gives back the original
    database. *)
Theorem deactivate_posts_effect s selected :
  let s1 := (deactivate_posts s selected).1 in
  (∀ i, posts s1 !! i
        = (if decide (i ∈ selected)
           then λ p, mkPost (post_author p) (post_content p)
                            (post_created_at p) (post_updated_at p)
                            (post_likes_count p) false
           else id) <$> posts s !! i)
  ∧ post_likes s1 = post_likes s ∧ users s1 = users s
  ∧ chats s1 = chats s ∧ messages s1 = messages s
  ∧ (∀ now user i, i ∈ selected →
       toggle_like s1 now user i = (s1, mkResponse HTTP_404_NOT_FOUND ErrorBody))
  ∧ ((∀ i p, i ∈ selected → posts s !! i = Some p → post_is_active p = true) →
     (activate_posts s1 selected).1 = s).
Proof.
  intros s1. subst s1. unfold deactivate_posts. cbn zeta. cbn [fst].
  assert (∀ i, posts (set_posts s (qs_update (selected_rows (posts s) selected)
                         (λ p, set_post_is_active p false) (posts s))) !! i
               = (if decide (i ∈ selected)
                  then λ p, set_post_is_active p false else id)
                 <$> posts s !! i) as Hlook
    by (intros i; apply lookup_update_selected).
  split; [exact Hlook|]. do 4 (split; [done|]). split.
  - intros now user i Hi. rewrite toggle_like_eq, Hlook.
    rewrite decide_True by done.
    by destruct (posts s !! i) as [p|].
  - intros Hact. unfold activate_posts. cbn zeta. cbn [fst].
    destruct s as [us ps ls cs ms]. unfold set_posts. simpl in *. f_equal.
    apply map_eq. intros i. rewrite lookup_update_selected.
    pose proof (Hlook i) as Hi. simpl in Hi. rewrite Hi.
    destruct (decide (i ∈ selected)) as [Hin|Hin].
    + destruct (ps !! i) as [p|] eqn:E; [|done]. simpl. f_equal.
      pose proof (Hact i p Hin E) as Hp. destruct p. simpl in *. by subst.
    + by destruct (ps !! i).
Qed.

Lemma deactivate_posts_effect_witness :
  (activate_posts (deactivate_posts db_posts [1%positive; 4%positive]).1
                  [1%positive; 4%positive]).1 = db_posts.
Proof.
  destruct (deactivate_posts_effect db_posts [1%positive; 4%positive])
    as (_ & _ & _ & _ & _ & _ & H).
  apply H. intros i p _. unfold db_posts. simpl.
  intros [_ <-]%lookup_singleton_Some. done.
Defined.

(** ** [admin_initiate_chat] *)

(** X10: [admin_initiate_chat] answers 403 to anyone who is not staff,
    whatever the body; for staff it answers 400 when [user_id] is missing or
    falsy and 404 when no user has that key.  In all three cases the database
    is left as it was. *)
Theorem admin_initiate_chat_errors s now user is_staff user_id message :
  (is_staff = false →
   admin_initiate_chat s now user is_staff user_id message
   = (s, mkAdminResponse HTTP_403_FORBIDDEN (ErrorMessage "Admin access required")))
  ∧ (is_staff = true → (user_id = None ∨ user_id = Some 0%N) →
     admin_initiate_chat s now user is_staff user_id message
     = (s, mkAdminResponse HTTP_400_BAD_REQUEST (ErrorMessage "user_id is required")))
  ∧ (∀ target, is_staff = true → user_id = Some (Npos target) →
       target ∉ users s →
       admin_initiate_chat s now user is_staff user_id message
       = (s, mkAdminResponse HTTP_404_NOT_FOUND NotFoundDetail))
  ∧ (admin_status (admin_initiate_chat s now user is_staff user_id message).2
     ≠ HTTP_201_CREATED →
     (admin_initiate_chat s now user is_staff user_id message).1 = s).
Proof.
  unfold admin_initiate_chat. split; [by intros ->|]. split.
  { by intros -> [-> | ->]. }
  split.
  { intros target -> -> Hno. simpl. by rewrite decide_False. }
  destruct is_staff; [|done]. simpl.
  destruct user_id as [[|target]|]; try done.
  by destruct (decide _).
Qed.

Lemma admin_initiate_chat_errors_witness :
  admin_initiate_chat db1 5 1%positive false (Some 2%N) (Some "hi")
  = (db1, mkAdminResponse HTTP_403_FORBIDDEN (ErrorMessage "Admin access required")).
Proof.
  by apply (admin_initiate_chat_errors db1 5 1 false (Some 2%N) (Some "hi")).
Defined.

(** The view never writes: whatever the request, the database is left as it
    was. *)
Lemma admin_initiate_chat_unchanged s now user is_staff user_id message :
  (admin_initiate_chat s now user is_staff user_id message).1 = s.
Proof.
  unfold admin_initiate_chat. destruct is_staff; [|done]. simpl.
  destruct user_id as [[|target]|]; try done.
  by destruct (decide _).
Qed.

(** X11: for staff and an existing target, [admin_initiate_chat] sends no
    message: the lookup of the conversation raises on its
    [participants__count] filter, so the request is answered 500 whatever
    the message text and whether or not the two have a conversation, and
    neither a conversation nor a message is written.  No request to this view
    is answered 201. *)
Theorem admin_initiate_chat_raises s now user target message :
  target ∈ users s →
  admin_initiate_chat s now user true (Some (Npos target)) message
  = (s, mkAdminResponse HTTP_500_INTERNAL_SERVER_ERROR ServerError)
  ∧ ∀ is_staff user_id,
      admin_status (admin_initiate_chat s now user is_staff user_id message).2
      ≠ HTTP_201_CREATED.
Proof.
  intros Ht. split.
  - unfold admin_initiate_chat. simpl. by rewrite decide_True.
  - intros is_staff user_id. unfold admin_initiate_chat.
    destruct is_staff; [|done]. simpl.
    destruct user_id as [[|t]|]; try done.
    by destruct (decide _).
Qed.

Lemma admin_initiate_chat_raises_witness :
  admin_initiate_chat db1 5 3%positive true (Some 2%N) (Some "hello")
  = (db1, mkAdminResponse HTTP_500_INTERNAL_SERVER_ERROR ServerError).
Proof.
  assert ((2 : pk)%positive ∈ users db1) as Ht by (by vm_compute).
  destruct (admin_initiate_chat_raises db1 5 3 2 (Some "hello") Ht) as [H _].
  exact H.
Defined.

(** ** The admin actions that initiate chats *)

(** The body of the two loops raises at its lookup. *)
Lemma initiate_chat_with_raises s now admin user content :
  initiate_chat_with s now admin user content = (s, None).
Proof. unfold initiate_chat_with. by rewrite existing_chats_raises. Qed.

(** A loop whose rounds on [s] either raise or change nothing: it ends with
    the accumulator it started with when no round raises, and raises
    otherwise, on the database it started with. *)
Lemma for_each_raise {A B} (body : DB → B → A → DB * option B) (P : A → bool)
    s acc l :
  (∀ acc x, body s acc x = (s, if P x then Some acc else None)) →
  for_each body s acc l = (s, if forallb P l then Some acc else None).
Proof.
  intros Hbody. induction l as [|x l IH]; [done|].
  simpl. rewrite Hbody. by destruct (P x).
Qed.

Lemma elem_of_participants_exclude s i admin c p :
  chats s !! i = Some c →
  p ∈ participants_exclude s i admin ↔ p ∈ chat_participants c ∧ p ≠ admin.
Proof.
  intros Hi. unfold participants_exclude. rewrite Hi. simpl.
  rewrite elem_of_elements. set_solver.
Qed.

(** X14: [UserAdmin.initiate_admin_chat] starts no chat.  With no user
    selected it reports 0 users; with any user selected the first round of
    its loop raises at the lookup, so the action ends with an exception, no
    message to the admin, and neither a conversation nor a greeting
    written. *)
Theorem UserAdmin_initiate_admin_chat_raises username s now admin queryset :
  (queryset = [] →
   UserAdmin_initiate_admin_chat username s now admin queryset = (s, Some 0))
  ∧ (queryset ≠ [] →
     UserAdmin_initiate_admin_chat username s now admin queryset = (s, None))
  ∧ (UserAdmin_initiate_admin_chat username s now admin queryset).1 = s.
Proof.
  unfold UserAdmin_initiate_admin_chat. cbn zeta.
  rewrite (for_each_raise _ (λ _, false) s () queryset)
    by (intros acc x; by rewrite initiate_chat_with_raises).
  split; [by intros ->|]. split; [|done].
  by destruct queryset.
Qed.

Lemma UserAdmin_initiate_admin_chat_raises_witness :
  UserAdmin_initiate_admin_chat (λ _, "user") db0 5 3%positive
    [1%positive; 2%positive]
  = (db0, None).
Proof.
  destruct (UserAdmin_initiate_admin_chat_raises (λ _, "user") db0 5 3
              [1%positive; 2%positive]) as (_ & H & _).
  by apply H.
Defined.

(** The inner loop of [ChatAdmin.initiate_admin_chat_with_participants]. *)
Lemma ChatAdmin_inner_loop username s now admin (acc : nat) l :
  for_each
    (λ s initiated_count participant,
       let r := initiate_chat_with s now admin participant
                  ("Hello " +:+ username participant
                   +:+ ", this is an admin message regarding your recent activity.") in
       (r.1, (λ created : bool,
                if created then S initiated_count else initiated_count)
             <$> r.2))
    s acc l
  = (s, if bool_decide (l = []) then Some acc else None).
Proof.
  rewrite (for_each_raise _ (λ _, false) s acc l)
    by (intros a x; by rewrite initiate_chat_with_raises).
  by destruct l.
Qed.

Lemma initiate_admin_chat_with_participants_eq username s now admin selected :
  initiate_admin_chat_with_participants username s now admin selected
  = (s, if forallb (λ chat : pk * Chat,
                      bool_decide (participants_exclude s chat.1 admin = []))
                   (selected_rows (chats s) selected)
        then Some 0 else None).
Proof.
  unfold initiate_admin_chat_with_participants.
  apply (for_each_raise _
           (λ chat : pk * Chat,
              bool_decide (participants_exclude s chat.1 admin = []))).
  intros acc chat. apply ChatAdmin_inner_loop.
Qed.

(** X15: [ChatAdmin.initiate_admin_chat_with_participants] starts no chat
    either.  It writes nothing, whatever is selected; it reports 0 users
    exactly when no selected chat has a participant other than the admin,
    and otherwise ends with the exception of the lookup and reports
    nothing. *)
Theorem initiate_admin_chat_with_participants_raises username s now admin
    selected :
  let r := initiate_admin_chat_with_participants username s now admin
             selected in
  r.1 = s
  ∧ (r.2 = Some 0 ∨ r.2 = None)
  ∧ (r.2 = None
     ↔ ∃ i c p, i ∈ selected ∧ chats s !! i = Some c
                ∧ p ∈ chat_participants c ∧ p ≠ admin).
Proof.
  intros r. subst r. rewrite initiate_admin_chat_with_participants_eq.
  cbn [fst snd]. split; [done|].
  destruct (forallb _ _) eqn:E.
  - split; [by left|]. split; [done|].
    intros (i & c & p & Hi & Hc & Hp & Hne). exfalso.
    rewrite forallb_forall in E.
    assert (bool_decide (participants_exclude s (i, c).1 admin = []) = true)
      as Hb.
    { apply E. apply list_elem_of_In. unfold selected_rows.
      rewrite list_elem_of_filter, elem_of_objects'. done. }
    apply bool_decide_eq_true in Hb. simpl in Hb.
    assert (p ∈ participants_exclude s i admin) as Hin
      by (by apply (elem_of_participants_exclude s i admin c p)).
    rewrite Hb in Hin. by apply not_elem_of_nil in Hin.
  - split; [by right|]. split; [|done]. intros _.
    assert (¬ Forall (λ chat : pk * Chat,
                        participants_exclude s chat.1 admin = [])
                     (selected_rows (chats s) selected)) as Hex.
    { intros HF. rewrite Forall_forall in HF.
      assert (forallb (λ chat : pk * Chat,
                bool_decide (participants_exclude s chat.1 admin = []))
                (selected_rows (chats s) selected) = true) as E'.
      { apply forallb_forall. intros x Hx. apply bool_decide_eq_true.
        apply HF. by apply list_elem_of_In. }
      congruence. }
    apply not_Forall_Exists in Hex; [|intros x; apply _].
    apply Exists_exists in Hex as ([i c] & Hx & Hne).
    unfold selected_rows in Hx.
    rewrite list_elem_of_filter, elem_of_objects' in Hx.
    destruct Hx as [Hi Hc]. simpl in *.
    destruct (participants_exclude s i admin) as [|p l] eqn:Ep; [done|].
    assert (p ∈ participants_exclude s i admin) as Hin
      by (rewrite Ep; by left).
    apply (elem_of_participants_exclude s i admin c p Hc) in Hin as [? ?].
    by exists i, c, p.
Qed.

(** The chat of users 1 and 2 selected by the admin 3: the action raises.
    Selected by user 1 of a chat that holds user 1 alone, it reports 0. *)
Example initiate_admin_chat_with_participants_db1 :
  initiate_admin_chat_with_participants (λ _, "user") db1 5 3%positive
    [1%positive]
  = (db1, None)
  ∧ (let s := mkDB {[1%positive]} ∅ ∅
                {[1%positive := mkChat {[1%positive]} 3 3 true]} ∅ in
     initiate_admin_chat_with_participants (λ _, "user") s 5 1%positive
       [1%positive]
     = (s, Some 0)).
Proof. by vm_compute. Qed.

(** ** Content previews *)

Lemma string_length_append (s1 s2 : string) :
  String.length (s1 +:+ s2) = String.length s1 + String.length s2.
Proof. induction s1 as [|c s1 IH]; simpl; [done|]. by rewrite IH. Qed.

Lemma string_length_take (n : nat) (s : string) :
  String.length (String.substring 0 n s) = n `min` String.length s.
Proof.
  revert s. induction n as [|n IH]; intros [|c s]; simpl; try done.
  by rewrite IH.
Qed.

Lemma string_take_prefix (n : nat) (s : string) :
  ∃ rest, s = String.substring 0 n s +:+ rest.
Proof.
  revert s. induction n as [|n IH]; intros [|c s]; simpl.
  - by exists EmptyString.
  - by exists (String c s).
  - by exists EmptyString.
  - destruct (IH s) as [rest Hrest]. exists rest.
    change (String c s = String c (String.substring 0 n s +:+ rest)).
    by f_equal.
Qed.

Lemma preview_facts (n : nat) (content : string) :
  let preview := if decide (n < String.length content)
                 then String.substring 0 n content +:+ "..." else content in
  String.length preview ≤ n + 3
  ∧ (String.length content ≤ n → preview = content)
  ∧ (n < String.length content →
     ∃ rest, content = String.substring 0 n content +:+ rest
             ∧ String.length (String.substring 0 n content) = n
             ∧ preview = String.substring 0 n content +:+ "...").
Proof.
  intros preview. subst preview. destruct (decide _) as [Hlt|Hge].
  - rewrite string_length_append, string_length_take. simpl.
    split; [lia|]. split; [lia|]. intros _.
    destruct (string_take_prefix n content) as [rest Hrest].
    exists rest. split; [done|]. split; [lia|done].
  - split; [lia|]. split; [done|]. lia.
Qed.

(** X17: the change-list previews are bounded and keep the start of the
    text: the preview of a post's content is never longer than 103
    characters, that of a comment or a message never longer than 53; content
    within the limit (100, 50, 50) is shown as it is; longer content is cut
    to its first 100 (50) characters followed by three dots. *)
Theorem content_preview_bounds (content : string) (obj : Message) :
  (String.length (PostAdmin_content_preview content) ≤ 103
   ∧ (String.length content ≤ 100 → PostAdmin_content_preview content = content)
   ∧ (100 < String.length content →
      ∃ rest, content = String.substring 0 100 content +:+ rest
              ∧ String.length (String.substring 0 100 content) = 100
              ∧ PostAdmin_content_preview content
                = String.substring 0 100 content +:+ "..."))
  ∧ (String.length (CommentAdmin_content_preview content) ≤ 53
     ∧ (String.length content ≤ 50 →
        CommentAdmin_content_preview content = content)
     ∧ (50 < String.length content →
        ∃ rest, content = String.substring 0 50 content +:+ rest
                ∧ String.length (String.substring 0 50 content) = 50
                ∧ CommentAdmin_content_preview content
                  = String.substring 0 50 content +:+ "..."))
  ∧ (String.length (MessageAdmin_content_preview obj) ≤ 53
     ∧ (String.length (msg_content obj) ≤ 50 →
        MessageAdmin_content_preview obj = msg_content obj)
     ∧ (50 < String.length (msg_content obj) →
        ∃ rest, msg_content obj = String.substring 0 50 (msg_content obj) +:+ rest
                ∧ String.length (String.substring 0 50 (msg_content obj)) = 50
                ∧ MessageAdmin_content_preview obj
                  = String.substring 0 50 (msg_content obj) +:+ "...")).
Proof.
  split; [apply (preview_facts 100)|].
  split; [apply (preview_facts 50)|apply (preview_facts 50)].
Qed.

Lemma content_preview_bounds_witness :
  PostAdmin_content_preview "post" = "post".
Proof.
  destruct (content_preview_bounds "post"
              (mkMessage 1%positive 1%positive "hi" 4 false))
    as ((_ & H & _) & _).
  apply H. simpl. lia.
Defined.

(** ** [LoginSerializer.validate] *)

Lemma truthy_true o : truthy o = true ↔ ∃ s, o = Some s ∧ s ≠ EmptyString.
Proof.
  destruct o as [[|c s]|]; simpl.
  - split; [done|]. by intros (s & [= <-] & ?).
  - split; [|done]. intros _. by eexists.
  - split; [done|]. by intros (s & ? & _).
Qed.

Lemma head_filter_Some {A} (P : A → Prop) `{!∀ x, Decision (P x)} l x :
  head (filter P l) = Some x → P x ∧ x ∈ l.
Proof. intros Hhd%head_Some_elem_of. by apply list_elem_of_filter in Hhd. Qed.

Lemma head_filter_None {A} (P : A → Prop) `{!∀ x, Decision (P x)} l :
  head (filter P l) = None ↔ ∀ x, x ∈ l → ¬ P x.
Proof.
  rewrite head_None. split.
  - intros Hnil x Hx HP.
    assert (x ∈ filter P l) as Hin by (by apply list_elem_of_filter).
    rewrite Hnil in Hin. by apply not_elem_of_nil in Hin.
  - intros Hall. apply elem_of_nil_inv. intros x.
    rewrite list_elem_of_filter. intros [HP Hx]. by apply (Hall x).
Qed.

(** The accounts a login attempt is compared with. *)
Lemma LoginSerializer_validate_eq check_password accounts email password ut :
  email ≠ EmptyString → password ≠ EmptyString →
  let users := filter (λ x : pk * Account,
                         acc_email x.2 = email ∧ Some (acc_user_type x.2) = ut)
                      (objects accounts) in
  LoginSerializer_validate check_password accounts
    (mkLoginAttrs (Some email) (Some password) ut)
  = match head (filter (λ x, check_password x.2 password = true) users) with
    | Some user =>
      if acc_is_active user.2 then inr user else inl User_account_is_disabled
    | None => inl Invalid_credentials
    end.
Proof.
  intros He Hp users. unfold LoginSerializer_validate. simpl.
  destruct email as [|c e]; [done|]. destruct password as [|d p]; [done|].
  simpl. fold users. by destruct users.
Qed.

(** X18: when [LoginSerializer.validate] accepts a login, the user it
    returns is a row of the user table with the given email and user type,
    the password checks against that row, and the account is active; and
    email and password were given and not empty. *)
Theorem LoginSerializer_validate_sound check_password accounts attrs user :
  LoginSerializer_validate check_password accounts attrs = inr user →
  ∃ email password,
    attrs_email attrs = Some email ∧ email ≠ EmptyString
    ∧ attrs_password attrs = Some password ∧ password ≠ EmptyString
    ∧ accounts !! user.1 = Some user.2
    ∧ acc_email user.2 = email
    ∧ Some (acc_user_type user.2) = attrs_user_type attrs
    ∧ check_password user.2 password = true
    ∧ acc_is_active user.2 = true.
Proof.
  destruct attrs as [oe op ut].
  destruct (truthy oe) eqn:Te; [|by unfold LoginSerializer_validate; simpl; rewrite Te].
  destruct (truthy op) eqn:Tp;
    [|by unfold LoginSerializer_validate; simpl; rewrite Te, Tp].
  apply truthy_true in Te as (email & -> & He).
  apply truthy_true in Tp as (password & -> & Hp).
  rewrite LoginSerializer_validate_eq by done.
  destruct (head _) as [u|] eqn:E; [|done].
  destruct (acc_is_active u.2) eqn:Hact; [|done]. intros [= <-].
  apply head_filter_Some in E as [Hcheck Hin].
  apply list_elem_of_filter in Hin as [[Hem Hty] Hin].
  apply elem_of_objects' in Hin.
  exists email, password. simpl. done.
Qed.

Lemma LoginSerializer_validate_sound_witness :
  let accounts : gmap pk Account :=
    {[1%positive := mkAccount "a@x.org" "pwd" "secret" true]} in
  let attrs := mkLoginAttrs (Some "a@x.org") (Some "secret") (Some "pwd") in
  ∃ user, LoginSerializer_validate (λ a p, bool_decide (acc_password a = p))
            accounts attrs = inr user
          ∧ acc_is_active user.2 = true.
Proof.
  intros accounts attrs.
  exists (1%positive, mkAccount "a@x.org" "pwd" "secret" true).
  assert (LoginSerializer_validate (λ a p, bool_decide (acc_password a = p))
            accounts attrs
          = inr (1%positive, mkAccount "a@x.org" "pwd" "secret" true)) as H
    by (by vm_compute).
  split; [done|].
  destruct (LoginSerializer_validate_sound _ _ _ _ H)
    as (? & ? & _ & _ & _ & _ & _ & _ & _ & _ & Hact).
  exact Hact.
Defined.

(** X19: the errors of [LoginSerializer.validate].  It asks for email and
    password exactly when one of them is missing or empty.  When no account
    with the given email and user type accepts the password, the answer is
    "Invalid credentials." whether such an account exists or not.  "User
    account is disabled." is only answered when some account with that email
    and user type accepts the password and is inactive.  And when some such
    account accepts the password and every one that does is active, the login
    is accepted. *)
Theorem LoginSerializer_validate_errors check_password accounts attrs :
  let r := LoginSerializer_validate check_password accounts attrs in
  let matches (a : Account) (password : string) :=
    Some (acc_email a) = attrs_email attrs
    ∧ Some (acc_user_type a) = attrs_user_type attrs
    ∧ check_password a password = true in
  (r = inl Must_include_email_and_password
   ↔ truthy (attrs_email attrs) = false ∨ truthy (attrs_password attrs) = false)
  ∧ (∀ password,
       truthy (attrs_email attrs) = true → password ≠ EmptyString →
       attrs_password attrs = Some password →
       (∀ i a, accounts !! i = Some a → ¬ matches a password) →
       r = inl Invalid_credentials)
  ∧ (r = inl User_account_is_disabled →
     ∃ i a password, attrs_password attrs = Some password
                     ∧ accounts !! i = Some a ∧ matches a password
                     ∧ acc_is_active a = false)
  ∧ (∀ password,
       truthy (attrs_email attrs) = true → password ≠ EmptyString →
       attrs_password attrs = Some password →
       (∃ i a, accounts !! i = Some a ∧ matches a password) →
       (∀ i a, accounts !! i = Some a → matches a password →
               acc_is_active a = true) →
       ∃ user, r = inr user).
Proof.
  intros r matches. subst r matches. destruct attrs as [oe op ut]. simpl.
  destruct (truthy oe) eqn:Te.
  2:{ unfold LoginSerializer_validate. simpl. rewrite Te. simpl.
      split; [split; [by left|done]|]. by repeat split. }
  destruct (truthy op) eqn:Tp.
  2:{ unfold LoginSerializer_validate. simpl. rewrite Te, Tp. simpl.
      split; [split; [by right|done]|].
      split; [|split; [done|]].
      - intros password _ Hne ->. simpl in Tp. by destruct password.
      - intros password _ Hne ->. simpl in Tp. by destruct password. }
  apply truthy_true in Te as (email & -> & He).
  apply truthy_true in Tp as (password & -> & Hp).
  rewrite LoginSerializer_validate_eq by done.
  set (users := filter _ (objects accounts)).
  assert (∀ x, x ∈ users ↔ accounts !! x.1 = Some x.2
                           ∧ acc_email x.2 = email
                           ∧ Some (acc_user_type x.2) = ut) as Husers.
  { intros x. unfold users. rewrite list_elem_of_filter, elem_of_objects'.
    tauto. }
  destruct (head _) as [u|] eqn:E.
  - apply head_filter_Some in E as [Hcheck Hin].
    apply Husers in Hin as (Hu & Hem & Hty).
    destruct (acc_is_active u.2) eqn:Hact.
    + split; [split; [done|by intros [|]]|]. split.
      { intros pw _ _ [= <-] Hno. destruct (Hno _ _ Hu). by rewrite Hem. }
      split; [done|]. intros. by eexists.
    + split; [split; [done|by intros [|]]|]. split.
      { intros pw _ _ [= <-] Hno. destruct (Hno _ _ Hu). by rewrite Hem. }
      split.
      { intros _. exists u.1, u.2, password. by rewrite Hem. }
      intros pw _ _ [= <-] _ Hall.
      rewrite (Hall _ _ Hu) in Hact; [done|]. by rewrite Hem.
  - rewrite head_filter_None in E.
    split; [split; [done|by intros [|]]|]. split; [done|]. split; [done|].
    intros pw _ _ [= <-] (i & a & Ha & [= Hem] & Hty & Hcheck) _.
    destruct (E (i, a)); [|done]. by apply Husers.
Qed.

Lemma LoginSerializer_validate_errors_witness :
  let accounts : gmap pk Account :=
    {[1%positive := mkAccount "a@x.org" "pwd" "secret" true]} in
  LoginSerializer_validate (λ a p, bool_decide (acc_password a = p)) accounts
    (mkLoginAttrs (Some "b@x.org") (Some "secret") (Some "pwd"))
  = inl Invalid_credentials.
Proof.
  intros accounts.
  destruct (LoginSerializer_validate_errors
              (λ a p, bool_decide (acc_password a = p)) accounts
              (mkLoginAttrs (Some "b@x.org") (Some "secret") (Some "pwd")))
    as (_ & H & _).
  apply (H "secret"); [done..|].
  intros i a. unfold accounts.
  intros [_ <-]%lookup_singleton_Some (Hem & _). simpl in Hem. congruence.
Defined.

(** ** [User.save] *)

(** X20: [User.save] never replaces an avatar that is set and sets none for
    a user without first name and username; an empty avatar becomes the
    upper-cased first character of the first name, or of the username when
    there is no first name; the names are left alone.  As upper-casing a
    character never gives the empty string, saving twice stores what saving
    once stores. *)
Theorem User_save_avatar (upper : string → string) (u : UserNames) :
  (avatar u ≠ EmptyString → User_save upper u = u)
  ∧ (first_name u = EmptyString → username u = EmptyString →
     User_save upper u = u)
  ∧ (∀ c rest, avatar u = EmptyString → first_name u = String c rest →
       avatar (User_save upper u) = upper (String c EmptyString))
  ∧ (∀ c rest, avatar u = EmptyString → first_name u = EmptyString →
       username u = String c rest →
       avatar (User_save upper u) = upper (String c EmptyString))
  ∧ first_name (User_save upper u) = first_name u
  ∧ username (User_save upper u) = username u
  ∧ ((∀ c, upper (String c EmptyString) ≠ EmptyString) →
     User_save upper (User_save upper u) = User_save upper u).
Proof.
  destruct u as [fn un av]. unfold User_save. simpl.
  split; [by destruct av|]. split; [by intros -> ->; destruct av|].
  split; [by intros c rest -> ->|]. split; [by intros c rest -> -> ->|].
  split; [destruct av; [destruct (str_or fn un)|]; done|].
  split; [destruct av; [destruct (str_or fn un)|]; done|].
  intros Hup. destruct av as [|a av]; [|done].
  destruct (str_or fn un) as [|c rest] eqn:E; simpl; [by rewrite E|].
  destruct (upper (String c EmptyString)) eqn:Eu; [by destruct (Hup c)|done].
Qed.

Lemma User_save_avatar_witness :
  User_save (λ x, x) (mkUserNames "" "bob" "") = mkUserNames "" "bob" "b"
  ∧ User_save (λ x, x) (User_save (λ x, x) (mkUserNames "" "bob" ""))
    = User_save (λ x, x) (mkUserNames "" "bob" "").
Proof.
  split; [done|].
  apply (User_save_avatar (λ x, x) (mkUserNames "" "bob" "")).
  intros c. done.
Defined.

(** ** Creating posts *)

(** X21: with [pdata_content] the content as the serializer field hands it
    on, that is trimmed of surrounding white space: a post body without
    content, or whose content is empty once trimmed, is answered 400 and
    nothing is stored.  Otherwise the answer is 201 and one post is added
    under a new key: its content is the trimmed text, its author is the
    requester, its counter is 0, it is active unless the body says otherwise,
    and no other row changes.
    When it is active, the first [toggle_like] of any user on it answers
    liked with a count of 1; when the body made it inactive, [toggle_like]
    answers 404. *)
Theorem PostListCreateView_create_then_like s now now' user liker d :
  likes_refer_to_posts s →
  let r := PostListCreateView_create s now user d in
  ((pdata_content d = None ∨ pdata_content d = Some EmptyString) →
   r = (s, mkPostResponse HTTP_400_BAD_REQUEST PostErrors))
  ∧ (∀ content, pdata_content d = Some content → content ≠ EmptyString →
       ∃ id,
         let p := mkPost user content now now 0%Z
                         (default true (pdata_is_active d)) in
         posts s !! id = None
         ∧ r = (set_posts s (<[id := p]> (posts s)),
                mkPostResponse HTTP_201_CREATED (PostRendered id p false))
         ∧ (pdata_is_active d ≠ Some false →
            (toggle_like r.1 now' liker id).2
            = mkResponse HTTP_200_OK (LikeBody true 1%Z))
         ∧ (pdata_is_active d = Some false →
            toggle_like r.1 now' liker id
            = (r.1, mkResponse HTTP_404_NOT_FOUND ErrorBody))).
Proof.
  intros Hrefs r. subst r.
  unfold PostListCreateView_create, PostSerializer_is_valid. split.
  { by intros [-> | ->]. }
  intros content -> Hc. rewrite decide_False by done. cbn zeta. cbn [fst snd].
  pose proof (new_pk_fresh (posts s)) as Hfresh.
  set (p := mkPost user content now now 0%Z (default true (pdata_is_active d))).
  set (s' := set_posts s (<[new_pk (posts s) := p]> (posts s))).
  assert (∀ u, likes_of s' u (new_pk (posts s)) = []) as Hnone.
  { intros u. apply elem_of_nil_inv. intros [k l].
    rewrite elem_of_likes_of. simpl. intros (Hk & _ & Hp).
    destruct (Hrefs _ _ Hk) as [q Hpost]. congruence. }
  assert (posts s' !! new_pk (posts s) = Some p) as Hnew
    by (subst s'; simpl; by rewrite lookup_insert_eq).
  exists (new_pk (posts s)). split; [done|]. split.
  { do 3 f_equal. simpl. apply bool_decide_eq_false. intros Hne. apply Hne.
    apply Hnone. }
  split.
  - intros Hact. rewrite toggle_like_eq, Hnew.
    assert (post_is_active p = true) as Hp
      by (subst p; simpl; by destruct (pdata_is_active d) as [[]|]).
    rewrite decide_True by done. by rewrite Hnone.
  - intros Hact. rewrite toggle_like_eq, Hnew.
    rewrite decide_False; [done|]. subst p. simpl. by rewrite Hact.
Qed.

Lemma PostListCreateView_create_then_like_witness :
  let r := PostListCreateView_create db_posts 5 2%positive
             (mkPostData (Some "new") None) in
  ∃ id, (toggle_like r.1 6 1%positive id).2
        = mkResponse HTTP_200_OK (LikeBody true 1%Z).
Proof.
  destruct (PostListCreateView_create_then_like db_posts 5 6 2 1
              (mkPostData (Some "new") None)) as (_ & H).
  { intros j l. unfold db_posts. simpl. by rewrite lookup_empty. }
  destruct (H "new") as (id & _ & _ & Hlike & _); [done..|].
  exists id. by apply Hlike.
Defined.

(** ** What the chat views show, and in which order *)

Global Instance Message_ordering_total : Total Message_ordering.
Proof. intros x y. unfold Message_ordering. lia. Qed.
Global Instance Message_ordering_trans : Transitive Message_ordering.
Proof. intros x y z. unfold Message_ordering. lia. Qed.

Lemma qs_over_NoDup_keys {A} (tbl : gmap pk A) (qs : list (pk * A)) :
  qs_over tbl qs → NoDup qs → NoDup qs.*1.
Proof.
  intros Hover Hnd. apply NoDup_fmap_2_strong; [|done].
  intros [i a] [j b] Hx Hy Hij. simpl in Hij. subst j.
  apply Hover in Hx, Hy. simpl in *. congruence.
Qed.

(** X22: an opened conversation shows all its messages and only those, each
    once, oldest first, as they are after the call: every message of the
    others is read. *)
Theorem ChatDetailView_retrieve_messages s viewer cid :
  status (ChatDetailView_retrieve s viewer cid).2 = HTTP_200_OK →
  let r := ChatDetailView_retrieve s viewer cid in
  ∃ chat msgs,
    chats s !! cid = Some chat
    ∧ data r.2 = ChatDetailBody cid chat msgs
    ∧ StronglySorted (λ x y, msg_created_at x.2 ≤ msg_created_at y.2) msgs
    ∧ NoDup msgs.*1
    ∧ (∀ x, x ∈ msgs ↔ messages r.1 !! x.1 = Some x.2 ∧ msg_chat x.2 = cid)
    ∧ (∀ x, x ∈ msgs → msg_sender x.2 ≠ viewer → msg_is_read x.2 = true).
Proof.
  rewrite ChatDetailView_retrieve_eq.
  destruct (chats s !! cid) as [chat|] eqn:Hchat; [|done].
  destruct (decide _) as [[Hin Hact]|]; [|done]. intros _.
  cbn zeta. cbn [fst snd data]. set (s' := set_messages s _).
  exists chat, (messages_all (chat_messages s' cid)).
  assert (∀ x, x ∈ messages_all (chat_messages s' cid)
               ↔ messages s' !! x.1 = Some x.2 ∧ msg_chat x.2 = cid) as Hel.
  { intros x. unfold messages_all.
    by rewrite merge_sort_Permutation, elem_of_chat_messages. }
  split; [done|]. split; [done|].
  split; [apply (StronglySorted_merge_sort Message_ordering)|].
  split.
  { apply (qs_over_NoDup_keys (messages s')).
    - intros x Hx. by apply Hel in Hx as [? _].
    - unfold messages_all. rewrite merge_sort_Permutation.
      apply NoDup_filter, NoDup_map_to_list. }
  split; [exact Hel|].
  intros [j m] [Hj Hc]%Hel Hs. simpl in *. subst s'. simpl in Hj.
  rewrite lookup_mark_read in Hj.
  destruct (messages s !! j) as [m0|]; [|done]. simpl in Hj.
  injection Hj as <-. unfold mark_read in *.
  destruct (decide _) as [Hd|Hd]; [done|].
  destruct (msg_is_read m0) eqn:Hr; [done|]. destruct Hd. done.
Qed.

Lemma ChatDetailView_retrieve_messages_witness :
  ∃ chat msgs,
    data (ChatDetailView_retrieve db2 2%positive 1%positive).2
    = ChatDetailBody 1%positive chat msgs
    ∧ NoDup msgs.*1.
Proof.
  destruct (ChatDetailView_retrieve_messages db2 2 1)
    as (chat & msgs & _ & H1 & _ & H2 & _); [by vm_compute|].
  by exists chat, msgs.
Defined.

(** X23: the chat list has one entry for each active conversation of the
    user, no conversation twice, most recently updated first, and each entry
    carries that conversation's last message and the user's unread count. *)
Theorem ChatListView_list_sorted s user :
  ∃ rows,
    (ChatListView_list s user).2
    = mkResponse HTTP_200_OK
        (ChatListBody
           ((λ x, mkChatData x.1 x.2 (get_last_message s x.1)
                             (get_unread_count s (Some user) x.1)) <$> rows))
    ∧ StronglySorted (λ x y, chat_updated_at y.2 ≤ chat_updated_at x.2) rows
    ∧ NoDup rows.*1
    ∧ (∀ x, x ∈ rows ↔ chats s !! x.1 = Some x.2
                       ∧ user ∈ chat_participants x.2
                       ∧ chat_is_active x.2 = true).
Proof.
  exists (merge_sort Chat_ordering (user_chats s user)).
  assert (∀ x, x ∈ merge_sort Chat_ordering (user_chats s user)
               ↔ chats s !! x.1 = Some x.2 ∧ user ∈ chat_participants x.2
                 ∧ chat_is_active x.2 = true) as Hel.
  { intros x. by rewrite merge_sort_Permutation, elem_of_user_chats. }
  split; [done|].
  split; [apply (StronglySorted_merge_sort Chat_ordering)|].
  split; [|exact Hel].
  apply (qs_over_NoDup_keys (chats s)).
  - intros x Hx. by apply Hel in Hx as [? _].
  - rewrite merge_sort_Permutation. apply NoDup_remove_dups.
Qed.

(** ** What no request does *)

Lemma message_kept_refl m : message_kept m m.
Proof. by unfold message_kept. Qed.

Lemma messages_kept_refl s s' : messages s' = messages s → messages_kept s s'.
Proof. intros Heq j m Hj. exists m. rewrite Heq. split; [done|apply message_kept_refl]. Qed.

Lemma messages_kept_insert s s' m0 :
  messages s' = <[new_pk (messages s) := m0]> (messages s) → messages_kept s s'.
Proof.
  intros Heq j m Hj. exists m. rewrite Heq. split; [|apply message_kept_refl].
  rewrite lookup_insert_ne; [done|].
  pose proof (new_pk_fresh (messages s)). congruence.
Qed.

Lemma messages_kept_trans s1 s2 s3 :
  messages_kept s1 s2 → messages_kept s2 s3 → messages_kept s1 s3.
Proof.
  intros H12 H23 j m Hj. destruct (H12 _ _ Hj) as (m2 & Hj2 & K2).
  destruct (H23 _ _ Hj2) as (m3 & Hj3 & K3). exists m3. split; [done|].
  unfold message_kept in *. intuition congruence.
Qed.

Lemma chats_kept_refl s s' : chats s' = chats s → chats_kept s s'.
Proof. intros Heq j c Hj. exists c. by rewrite Heq. Qed.

Lemma chats_kept_insert s s' c0 :
  chats s' = <[new_pk (chats s) := c0]> (chats s) → chats_kept s s'.
Proof.
  intros Heq j c Hj. exists c. rewrite Heq. split; [|done].
  rewrite lookup_insert_ne; [done|].
  pose proof (new_pk_fresh (chats s)). congruence.
Qed.

Lemma chats_kept_trans s1 s2 s3 :
  chats_kept s1 s2 → chats_kept s2 s3 → chats_kept s1 s3.
Proof.
  intros H12 H23 j c Hj. destruct (H12 _ _ Hj) as (c2 & Hj2 & K2).
  destruct (H23 _ _ Hj2) as (c3 & Hj3 & K3). exists c3. split; [done|].
  intuition congruence.
Qed.

Lemma create_or_get_chat_tables s now user user_id :
  let s' := (create_or_get_chat s now user user_id).1 in
  messages s' = messages s ∧ posts s' = posts s ∧ post_likes s' = post_likes s
  ∧ (chats s' = chats s
     ∨ ∃ c0, chats s' = <[new_pk (chats s) := c0]> (chats s)).
Proof.
  intros s'. subst s'. rewrite create_or_get_chat_unchanged. by auto.
Qed.

Lemma MessageCreateView_create_tables s now user chat_id d :
  let s' := (MessageCreateView_create s now user chat_id d).1 in
  s' = s
  ∨ ∃ m0 chat,
      chats s !! chat_id = Some chat
      ∧ messages s' = <[new_pk (messages s) := m0]> (messages s)
      ∧ chats s' = <[chat_id := mkChat (chat_participants chat)
                                  (chat_created_at chat) now
                                  (chat_is_active chat)]> (chats s).
Proof.
  unfold MessageCreateView_create.
  destruct (MessageSerializer_is_valid d) as [v|]; [|by left].
  rewrite perform_create_eq.
  destruct (chats s !! chat_id) as [chat|] eqn:Hchat; [|by left].
  destruct (decide _); [|by left]. right. simpl. by eexists _, chat.
Qed.

Lemma admin_initiate_chat_tables s now user is_staff user_id message :
  let s' := (admin_initiate_chat s now user is_staff user_id message).1 in
  s' = s
  ∨ ((∃ m0, messages s' = <[new_pk (messages s) := m0]> (messages s))
     ∧ (chats s' = chats s
        ∨ ∃ c0, chats s' = <[new_pk (chats s) := c0]> (chats s))).
Proof.
  intros s'. subst s'. left. apply admin_initiate_chat_unchanged.
Qed.

Lemma toggle_like_tables s now user post_id :
  messages (toggle_like s now user post_id).1 = messages s
  ∧ chats (toggle_like s now user post_id).1 = chats s.
Proof.
  rewrite toggle_like_eq. destruct (posts s !! post_id); [|done].
  destruct (decide _); [|done].
  by destruct (likes_of s user post_id) as [|[lid l] [|y rest]].
Qed.

Lemma handle_messages_kept s now req : messages_kept s (handle s now req).
Proof.
  destruct req; simpl.
  - apply messages_kept_refl, toggle_like_tables.
  - apply messages_kept_refl. unfold PostListCreateView_create.
    by destruct (PostSerializer_is_valid d).
  - by apply messages_kept_refl.
  - rewrite ChatDetailView_retrieve_eq.
    destruct (chats s !! id); [|by apply messages_kept_refl].
    destruct (decide _); [|by apply messages_kept_refl].
    intros j m Hj. cbn zeta. cbn [fst messages set_messages].
    rewrite lookup_mark_read, Hj. simpl. eexists. split; [done|].
    unfold mark_read, message_kept. by destruct (decide _).
  - apply messages_kept_refl, create_or_get_chat_tables.
  - destruct (MessageCreateView_create_tables s now user chat_id d)
      as [->|(m0 & chat & _ & Hm & _)]; [by apply messages_kept_refl|].
    by eapply messages_kept_insert.
  - apply messages_kept_refl. unfold admin_delete_post.
    destruct is_staff; simpl; [|done]. by destruct (qs_get _ _) as [[? ?]|].
  - destruct (admin_initiate_chat_tables s now user is_staff user_id message)
      as [->|[[m0 Hm] _]]; [by apply messages_kept_refl|].
    by eapply messages_kept_insert.
Qed.

Lemma handle_chats_kept s now req : chats_kept s (handle s now req).
Proof.
  destruct req; simpl.
  - apply chats_kept_refl, toggle_like_tables.
  - apply chats_kept_refl. unfold PostListCreateView_create.
    by destruct (PostSerializer_is_valid d).
  - by apply chats_kept_refl.
  - apply chats_kept_refl. rewrite ChatDetailView_retrieve_eq.
    destruct (chats s !! id); [|done]. by destruct (decide _).
  - destruct (create_or_get_chat_tables s now user user_id)
      as (_ & _ & _ & [Hc|[c0 Hc]]); [by apply chats_kept_refl|].
    by eapply chats_kept_insert.
  - destruct (MessageCreateView_create_tables s now user chat_id d)
      as [->|(m0 & chat & Hchat & _ & Hc)]; [by apply chats_kept_refl|].
    intros j c Hj. rewrite Hc. destruct (decide (j = chat_id)) as [->|Hne].
    + rewrite lookup_insert_eq. eexists. split; [done|].
      rewrite Hchat in Hj. by injection Hj as <-.
    + rewrite lookup_insert_ne by done. by exists c.
  - apply chats_kept_refl. unfold admin_delete_post.
    destruct is_staff; simpl; [|done]. by destruct (qs_get _ _) as [[? ?]|].
  - destruct (admin_initiate_chat_tables s now user is_staff user_id message)
      as [->|[_ [Hc|[c0 Hc]]]]; [by apply chats_kept_refl..|].
    by eapply chats_kept_insert.
Qed.

(** X24: through any sequence of requests to the views, no message is ever
    deleted or rewritten: each keeps its conversation, sender, content and
    creation time, and a message that is read stays read. *)
Theorem messages_never_rewritten s reqs j m :
  messages s !! j = Some m →
  ∃ m', messages (handle_all s reqs) !! j = Some m'
        ∧ msg_chat m' = msg_chat m ∧ msg_sender m' = msg_sender m
        ∧ msg_content m' = msg_content m
        ∧ msg_created_at m' = msg_created_at m
        ∧ (msg_is_read m = true → msg_is_read m' = true).
Proof.
  assert (messages_kept s (handle_all s reqs)) as H; [|apply H].
  revert s. induction reqs as [|r reqs IH]; intros s;
    [by apply messages_kept_refl|].
  simpl. eapply messages_kept_trans; [apply handle_messages_kept|apply IH].
Qed.

Lemma messages_never_rewritten_witness :
  ∃ m', messages (handle_all db2
                    [(7, Chat_detail 2%positive 1%positive);
                     (8, Message_create 2%positive 1%positive
                           (mkMessageData (Some "ok") None))]) !! 1%positive
        = Some m'
        ∧ msg_content m' = "hi".
Proof.
  destruct (messages_never_rewritten db2
              [(7, Chat_detail 2%positive 1%positive);
               (8, Message_create 2%positive 1%positive
                     (mkMessageData (Some "ok") None))] 1%positive
              (mkMessage 1%positive 1%positive "hi" 4 false))
    as (m' & H1 & _ & _ & H2 & _); [by vm_compute|].
  by exists m'.
Defined.

(** X25: through any sequence of requests to the views, no conversation is
    ever deleted, its participants never change, and its [is_active] flag
    never changes: a deactivated conversation is not reactivated and an
    active one is not deactivated. *)
Theorem chats_never_changed s reqs j c :
  chats s !! j = Some c →
  ∃ c', chats (handle_all s reqs) !! j = Some c'
        ∧ chat_participants c' = chat_participants c
        ∧ chat_created_at c' = chat_created_at c
        ∧ chat_is_active c' = chat_is_active c.
Proof.
  assert (chats_kept s (handle_all s reqs)) as H; [|apply H].
  revert s. induction reqs as [|r reqs IH]; intros s;
    [by apply chats_kept_refl|].
  simpl. eapply chats_kept_trans; [apply handle_chats_kept|apply IH].
Qed.

Lemma chats_never_changed_witness :
  ∃ c', chats (handle_all db_inactive
                 [(7, Create_or_get_chat 1%positive (Some 2%N));
                  (8, Admin_initiate_chat 1%positive true (Some 2%N) None)])
          !! 1%positive = Some c'
        ∧ chat_is_active c' = false.
Proof.
  destruct (chats_never_changed db_inactive
              [(7, Create_or_get_chat 1%positive (Some 2%N));
               (8, Admin_initiate_chat 1%positive true (Some 2%N) None)]
              1%positive (mkChat {[1%positive; 2%positive]} 3 3 false))
    as (c' & H1 & _ & _ & H2); [by vm_compute|].
  by exists c'.
Defined.

Lemma handle_chats_dom s now req : dom (chats (handle s now req)) = dom (chats s).
Proof.
  destruct req; simpl.
  - by destruct (toggle_like_tables s now user post_id) as [_ ->].
  - unfold PostListCreateView_create. by destruct (PostSerializer_is_valid d).
  - done.
  - rewrite ChatDetailView_retrieve_eq.
    destruct (chats s !! id); [|done]. by destruct (decide _).
  - by rewrite create_or_get_chat_unchanged.
  - destruct (MessageCreateView_create_tables s now user chat_id d)
      as [->|(m0 & chat & Hchat & _ & ->)]; [done|].
    apply dom_insert_lookup_L. by rewrite Hchat.
  - unfold admin_delete_post.
    destruct is_staff; simpl; [|done]. by destruct (qs_get _ _) as [[? ?]|].
  - by rewrite admin_initiate_chat_unchanged.
Qed.

Lemma handle_no_chats s now req :
  chats s = ∅ →
  chats (handle s now req) = ∅ ∧ messages (handle s now req) = messages s.
Proof.
  intros Hno. split.
  - apply dom_empty_inv_L. rewrite handle_chats_dom, Hno. apply dom_empty_L.
  - destruct req; simpl.
    + by destruct (toggle_like_tables s now user post_id) as [-> _].
    + unfold PostListCreateView_create. by destruct (PostSerializer_is_valid d).
    + done.
    + rewrite ChatDetailView_retrieve_eq. by rewrite Hno, lookup_empty.
    + by rewrite create_or_get_chat_unchanged.
    + destruct (MessageCreateView_create_tables s now user chat_id d)
        as [->|(m0 & chat & Hchat & _ & _)]; [done|].
      by rewrite Hno, lookup_empty in Hchat.
    + unfold admin_delete_post.
      destruct is_staff; simpl; [|done]. by destruct (qs_get _ _) as [[? ?]|].
    + by rewrite admin_initiate_chat_unchanged.
Qed.

(** X27: no sequence of requests to the views creates a conversation: the
    conversation table keeps exactly the keys it had, because every call of
    [create_or_get_chat] and [admin_initiate_chat] that gets as far as the
    lookup raises.  From a database without conversations no sequence of
    requests leads to a conversation or to a new message. *)
Theorem chats_never_created s reqs :
  dom (chats (handle_all s reqs)) = dom (chats s)
  ∧ (chats s = ∅ →
     chats (handle_all s reqs) = ∅
     ∧ messages (handle_all s reqs) = messages s).
Proof.
  split.
  - revert s. induction reqs as [|r reqs IH]; intros s; [done|].
    simpl. by rewrite IH, handle_chats_dom.
  - revert s. induction reqs as [|r reqs IH]; intros s Hno; [done|].
    simpl. destruct (handle_no_chats s r.1 r.2 Hno) as [Hc Hm].
    destruct (IH _ Hc) as [-> ->]. done.
Qed.

Lemma chats_never_created_witness :
  chats (handle_all db0
           [(5, Create_or_get_chat 1%positive (Some 2%N));
            (6, Admin_initiate_chat 3%positive true (Some 1%N) (Some "hello"));
            (7, Message_create 1%positive 1%positive
                  (mkMessageData (Some "hi") None))]) = ∅.
Proof.
  destruct (chats_never_created db0
              [(5, Create_or_get_chat 1%positive (Some 2%N));
               (6, Admin_initiate_chat 3%positive true (Some 1%N) (Some "hello"));
               (7, Message_create 1%positive 1%positive
                     (mkMessageData (Some "hi") None))]) as [_ H].
  by apply H.
Defined.

(** ** The extra statements on concrete databases *)

Lemma toggle_like_frame_witness :
  get_is_liked (toggle_like db_posts 2 1%positive 1%positive).1
               (Some 2%positive) 1%positive
  = get_is_liked db_posts (Some 2%positive) 1%positive.
Proof.
  destruct (toggle_like_frame db_posts 2 1 1) as (H & _).
  apply H. intros [= ?].
Defined.

Lemma initiate_admin_chat_with_participants_raises_witness :
  (initiate_admin_chat_with_participants (λ _, "ann") db1 5 3%positive
     [1%positive]).2 = None.
Proof.
  destruct (initiate_admin_chat_with_participants_raises (λ _, "ann") db1 5
              3%positive [1%positive]) as (_ & _ & H).
  apply H.
  exists 1%positive, (mkChat {[1%positive; 2%positive]} 3 3 true), 1%positive.
  split; [by left|]. split; [by vm_compute|]. split; [set_solver|done].
Defined.
